(** * abiflows.core.models: the object-document mapper, embedded in Rocq

    The development follows [src/abiflows/core/models.py].  Python
    objects become records, attributes that may be unset become
    [option]s, exceptions become the [Raise] branch of [result], and the
    calls that reach the file store thread an explicit [Backend] state.
    The interpreter is Python 3: a file opened in text mode and the
    [read()] of a text file hand out [str], not bytes.
    The collaborators the module imports (the workflow objects of abipy,
    the document classes and GridFS proxies of mongoengine, the decoder of
    monty) are embedded as far as the module uses them, each in a module
    of its own. *)

From Stdlib Require Import ZArith String Ascii List Bool Lia.
From stdpp Require Import base option list.
Import ListNotations.
Set Warnings "-register-all".
Local Open Scope string_scope.
Local Open Scope Z_scope.
Local Open Scope list_scope.

(** ** The Python runtime the module relies on *)
Module Py.

(** The subscript of [obj[...]]: a name, an integer or a slice. *)
Inductive key :=
| KName (s : string)
| KIndex (i : Z)
| KSlice (start stop step : option Z).

Inductive exn :=
| AttributeError (type_name attr : string)
| KeyError (k : key)
| IndexError
| TypeError (msg : string)
| ValueError (msg : string)
| ImportError (modname : string)
| GridFSError (msg : string)
| OperationFailure
| RuntimeError (msg : string).

Inductive result (A : Type) :=
| Ok (a : A)
| Raise (e : exn).
Arguments Ok {A} a.
Arguments Raise {A} e.

Definition bind {A B} (r : result A) (k : A -> result B) : result B :=
  match r with
  | Ok a => k a
  | Raise e => Raise e
  end.

Definition is_ok {A} (r : result A) : bool :=
  match r with Ok _ => true | Raise _ => false end.

(** [s.lower()] on the ASCII range. *)
Definition lower_ascii (c : ascii) : ascii :=
  let n := nat_of_ascii c in
  if (Nat.leb 65 n && Nat.leb n 90)%bool then ascii_of_nat (n + 32) else c.

Fixpoint lower (s : string) : string :=
  match s with
  | EmptyString => EmptyString
  | String c s' => String (lower_ascii c) (lower s')
  end.

(** [s.replace(old, new)] scans left to right and replaces the
    occurrences of [old] that do not overlap.  [skip] counts the
    characters of a matched occurrence that are still to be dropped. *)
Fixpoint replace_from (old new : string) (skip : nat) (s : string) : string :=
  match s with
  | EmptyString => EmptyString
  | String c s' =>
      match skip with
      | S k => replace_from old new k s'
      | O =>
          if String.prefix old s
          then String.append new (replace_from old new (Nat.pred (String.length old)) s')
          else String c (replace_from old new O s')
      end
  end.

Fixpoint intersperse (new s : string) : string :=
  match s with
  | EmptyString => new
  | String c s' => String.append new (String c (intersperse new s'))
  end.

Definition replace (old new s : string) : string :=
  match old with
  | EmptyString => intersperse new s
  | _ => replace_from old new O s
  end.

(** What [read()] hands out: text ([str]) or [bytes]. *)
Inductive data :=
| Str (s : string)
| Bytes (b : string).

(** [open(path, mode)] reads bytes when the mode has a ["b"], text
    otherwise. *)
Fixpoint binary_mode (mode : string) : bool :=
  match mode with
  | EmptyString => false
  | String c rest => Ascii.eqb c "b"%char || binary_mode rest
  end.

(** Truth value of a string: the empty string is false. *)
Definition truthy (s : string) : bool :=
  match s with EmptyString => false | _ => true end.

(** *** Indexing a list: [l[i]] and [l[start:stop:step]] *)

Inductive item (A : Type) :=
| One (a : A)
| Many (l : list A).
Arguments One {A} a.
Arguments Many {A} l.

(** [slice.indices(len)]: the three numbers a slice stands for on a
    sequence of length [len]; [None] when the step is zero. *)
Definition slice_indices (start stop step : option Z) (len : Z) : option (Z * Z * Z) :=
  let st := match step with Some s => s | None => 1 end in
  if st =? 0 then None else
  let lower := if 0 <? st then 0 else -1 in
  let upper := if 0 <? st then len else len - 1 in
  let clip (x : Z) := if x <? 0 then Z.max (x + len) lower else Z.min x upper in
  let a := match start with
           | None => if st <? 0 then upper else lower
           | Some x => clip x
           end in
  let b := match stop with
           | None => if st <? 0 then lower else upper
           | Some x => clip x
           end in
  Some (a, b, st).

(** [range(a, b, st)], with as many steps as the sequence has elements. *)
Fixpoint range_from (fuel : nat) (i stop st : Z) : list Z :=
  match fuel with
  | O => []
  | S f =>
      if ((0 <? st) && (i <? stop) || (st <? 0) && (stop <? i))%bool
      then i :: range_from f (i + st) stop st
      else []
  end.

Definition getitem_int {A} (l : list A) (i : Z) : result A :=
  let len := Z.of_nat (length l) in
  let j := if i <? 0 then i + len else i in
  if (j <? 0) || (len <=? j) then Raise IndexError
  else match l !! Z.to_nat j with
       | Some a => Ok a
       | None => Raise IndexError
       end.

Definition getitem_slice {A} (l : list A) (start stop step : option Z) : result (list A) :=
  match slice_indices start stop step (Z.of_nat (length l)) with
  | None => Raise (ValueError "slice step cannot be zero")
  | Some (a, b, st) =>
      Ok (omap (fun j => l !! Z.to_nat j) (range_from (length l) a b st))
  end.

(** [l[k]] for a Python list. *)
Definition list_getitem {A} (l : list A) (k : key) : result (item A) :=
  match k with
  | KIndex i => bind (getitem_int l i) (fun a => Ok (One a))
  | KSlice a b s => bind (getitem_slice l a b s) (fun r => Ok (Many r))
  | KName _ => Raise (TypeError "list indices must be integers or slices, not str")
  end.

End Py.

Notation "'let?' x ':=' r 'in' k" := (Py.bind r (fun x => k))
  (at level 10, x name, r at level 100, k at level 200).

(** ** JSON-like data: what [as_dict()] returns and a dictionary field stores *)
Module Json.

Inductive t :=
| Null
| Bool (b : bool)
| Int (z : Z)
| Float (repr : string)
| Str (s : string)
| List (l : list t)
| Dict (d : list (string * t)).

Definition dict := list (string * t).

(** [key in d] *)
Definition has_key (k : string) (d : dict) : bool :=
  existsb (fun kv => String.eqb (fst kv) k) d.

(** [d[key]] for a key known to be present. *)
Fixpoint get (k : string) (d : dict) : option t :=
  match d with
  | [] => None
  | (k', v) :: r => if String.eqb k' k then Some v else get k r
  end.

End Json.

(** ** The workflow objects (abipy): the attributes the conversions read *)
Module Abipy.

(** [node.status]: an integer code whose [str()] is the status name. *)
Record Status := { status_code : Z; status_str : string }.

(** [node.outdir]: [has_abiext(ext)] is the path of the file with that
    extension, or the empty string when the directory has none.  A
    directory with several files of one extension, for which the method
    raises, is not represented. *)
Record Directory := { has_abiext : string -> string }.

(** [node.output_file]: a file object with [read()]. *)
Record File := { file_path : string; read : Py.data }.

Record Structure := { structure_as_dict : Json.dict }.

(** [task.input]: [as_dict()], [str()] and [.structure]. *)
Record AbinitInput := {
  input_as_dict : Json.dict;
  input_to_str : string;
  structure : Structure
}.

(** [task.get_event_report()]. *)
Record EventReport := {
  num_errors : Z;
  num_comments : Z;
  num_warnings : Z;
  report_as_dict : Json.dict
}.

(** [getattr(report, a)] *)
Definition report_getattr (r : EventReport) (a : string) : Py.result Z :=
  if String.eqb a "num_errors" then Py.Ok (num_errors r)
  else if String.eqb a "num_comments" then Py.Ok (num_comments r)
  else if String.eqb a "num_warnings" then Py.Ok (num_warnings r)
  else Py.Raise (Py.AttributeError "EventReport" a).

(** What [task.open_gsr()] yields: the file with the final structure.
    The call is taken to return the file whenever the task has the
    method. *)
Record GsrFile := { gsr_structure : Structure }.

(** The attributes common to tasks, works and flows.  [output_file] is
    [None] for an object without that attribute ([hasattr] is false). *)
Record Node := {
  class_name : string;
  node_id : Z;
  status : Status;
  workdir : string;
  outdir : Directory;
  output_file : option File
}.

(** A task; [get_event_report] is [None] when the call returns
    Python's [None], [open_gsr] is [None] when the task has no such
    method. *)
Record Task := {
  task_node : Node;
  input : AbinitInput;
  get_event_report : option EventReport;
  open_gsr : option GsrFile
}.

(** Iterating a work yields its tasks, iterating a flow its works. *)
Record Work := { work_node : Node; work_tasks : list Task }.
Record Flow := { flow_node : Node; flow_works : list Work }.

End Abipy.

(** ** The decoder of monty: [MontyDecoder().process_decoded]

    The decoder is embedded as it behaves under the module.  A
    dictionary that has both keys ["@module"] and ["@class"], with a module
    name that is not empty, is looked up: when the module can be imported
    and has the class, and the class has a [from_dict], the result is that
    [from_dict] on the entries whose key does not start with ["@"].  In
    every other case (no tag, a module that cannot be imported, no such
    class, no [from_dict]) the dictionary is decoded entry by entry into a
    plain mapping.  A list is decoded element by element, anything else is
    returned as it is.  The keys of a stored dictionary are strings, which
    decode to themselves. *)
Module Monty.

(** What decoding produces: plain data, or an object rebuilt by the
    [from_dict] of the class the tag names. *)
Inductive obj :=
| ONull
| OBool (b : bool)
| OInt (z : Z)
| OFloat (repr : string)
| OStr (s : string)
| OList (l : list obj)
| ODict (d : list (string * obj))
| OInstance (modname classname : string) (state : Json.dict).

(** The classes [__import__] can reach: a module name gives a module,
    or nothing when the import fails; a module maps a class name to the
    class, which has a [from_dict] or not. *)
Record PyClass := { from_dict : option (Json.dict -> Py.result obj) }.
Definition PyModule := string -> option PyClass.
Definition Importer := string -> option PyModule.

(** [k.startswith("@")] *)
Definition is_tag_key (k : string) : bool := String.prefix "@" k.

(** The dictionary has the type tag: both reserved keys are present. *)
Definition tagged (d : Json.dict) : bool :=
  Json.has_key "@module" d && Json.has_key "@class" d.

(** Truth value of a JSON value, as [if modname:] tests it. *)
Definition truthy (v : Json.t) : bool :=
  match v with
  | Json.Null => false
  | Json.Bool b => b
  | Json.Int z => negb (z =? 0)
  | Json.Float _ => true
  | Json.Str s => Py.truthy s
  | Json.List l => match l with [] => false | _ => true end
  | Json.Dict d => match d with [] => false | _ => true end
  end.

Section Decoder.
Variable importer : Importer.

(** The tagged branch: import the module, look the class up, and
    call its [from_dict] on the entries without the ["@"] keys.  [None]
    stands for falling through to the plain-dictionary branch. *)
Definition decode_tagged (d : Json.dict) : option (Py.result obj) :=
  if tagged d then
    match Json.get "@module" d, Json.get "@class" d with
    | Some modname, Some classname =>
        if truthy modname then
          match modname, classname with
          | Json.Str m, Json.Str c =>
              match importer m with
              | None => None
              | Some md =>
                  match md c with
                  | Some cls =>
                      let data := filter (fun kv => negb (is_tag_key (fst kv))) d in
                      match from_dict cls with
                      | Some f => Some (f data)
                      | None => None
                      end
                  | None => None
                  end
              end
          | _, _ => Some (Py.Raise (Py.TypeError "module and class names must be strings"))
          end
        else None
    | _, _ => None
    end
  else None.

Fixpoint process_decoded (d : Json.t) : Py.result obj :=
  match d with
  | Json.Dict kvs =>
      match decode_tagged kvs with
      | Some r => r
      | None =>
          let? items :=
            (fix entries (l : list (string * Json.t)) : Py.result (list (string * obj)) :=
               match l with
               | [] => Py.Ok []
               | (k, v) :: r =>
                   let? v' := process_decoded v in
                   let? r' := entries r in
                   Py.Ok ((k, v') :: r')
               end) kvs in
          Py.Ok (ODict items)
      end
  | Json.List l =>
      let? items :=
        (fix elements (l : list Json.t) : Py.result (list obj) :=
           match l with
           | [] => Py.Ok []
           | v :: r =>
               let? v' := process_decoded v in
               let? r' := elements r in
               Py.Ok (v' :: r')
           end) l in
      Py.Ok (OList items)
  | Json.Null => Py.Ok ONull
  | Json.Bool b => Py.Ok (OBool b)
  | Json.Int z => Py.Ok (OInt z)
  | Json.Float r => Py.Ok (OFloat r)
  | Json.Str s => Py.Ok (OStr s)
  end.

(** The entries of a plain dictionary, decoded one after the other. *)
Fixpoint decode_entries (l : Json.dict) : Py.result (list (string * obj)) :=
  match l with
  | [] => Py.Ok []
  | (k, v) :: r =>
      let? v' := process_decoded v in
      let? r' := decode_entries r in
      Py.Ok ((k, v') :: r')
  end.

End Decoder.

End Monty.

(** ** The mapping library (mongoengine), as far as the module uses it *)
Module Mongoengine.

(** What a file proxy refers to in the file store.  [put(f)] with an open
    file stores what the handle reads, [put(s)] with data stores the
    data; the record identifies the stored blob with what was put. *)
Inductive content :=
| FromHandle (path mode : string)
| FromData (data : Py.data).

(** The store takes bytes.  A handle opened in text mode hands it [str]
    when it is read, and a [str] given as data has no encoding to go by:
    the store refuses both with a [TypeError]. *)
Definition refused (c : content) : option string :=
  match c with
  | FromHandle _ mode =>
      if Py.binary_mode mode then None
      else Some "a bytes-like object is required, not 'str'"
  | FromData (Py.Str _) => Some "must specify an encoding for file in order to write str"
  | FromData (Py.Bytes _) => None
  end.

(** [GridFSProxy]: [key] is the name of the field the proxy belongs to,
    [grid_id] is unset while the proxy holds no file. *)
Record GridFSProxy := { key : string; grid_id : option content }.

(** [proxy.put(...)]: stores the file and keeps its identifier; a proxy
    that already has one refuses
    ([if self.grid_id: raise GridFSError(...)]), and the store raises
    [TypeError] when it is handed text. *)
Definition put (proxy : GridFSProxy) (c : content) : Py.result GridFSProxy :=
  match grid_id proxy with
  | Some _ => Py.Raise (Py.GridFSError "This document already has a file")
  | None =>
      match refused c with
      | Some msg => Py.Raise (Py.TypeError msg)
      | None => Py.Ok {| key := key proxy; grid_id := Some c |}
      end
  end.

(** The file store as [delete] sees it: [calls] lists the proxies
    [delete()] has been called on, oldest first, each as it was at the
    call; [fails n] tells whether the call number [n] (from 0) fails. *)
Record Backend := { fails : nat -> bool; calls : list GridFSProxy }.

Definition record_call (proxy : GridFSProxy) (st : Backend) : Backend :=
  {| fails := fails st; calls := calls st ++ [proxy] |}.

(** [proxy.delete()]: asks the store to delete the file, then forgets
    the identifier ([self.fs.delete(self.grid_id); self.grid_id = None]).
    When the store fails, its error comes out of the call. *)
Definition proxy_delete (proxy : GridFSProxy) (st : Backend) : Backend * Py.result GridFSProxy :=
  if fails st (length (calls st))
  then (record_call proxy st, Py.Raise Py.OperationFailure)
  else (record_call proxy st, Py.Ok {| key := key proxy; grid_id := None |}).



(** [BaseDocument.__getitem__]: dictionary-style access to a field;
    anything that is not the name of a field is a [KeyError]
<<
    try:
        if name in self._fields_ordered:
            return getattr(self, name)
    except AttributeError:
        pass
    raise KeyError(name)
>> *)
Definition document_getitem {V} (fields_ordered : list string)
    (getattr : string -> Py.result V) (name : Py.key) : Py.result V :=
  match name with
  | Py.KName s =>
      if existsb (String.eqb s) fields_ordered then
        match getattr s with
        | Py.Raise (Py.AttributeError _ _) => Py.Raise (Py.KeyError name)
        | r => r
        end
      else Py.Raise (Py.KeyError name)
  | _ => Py.Raise (Py.KeyError name)
  end.

(** [BaseList.__getitem__]: the value of a list field is a [BaseList],
    which turns a negative integer [key] into [len(self) + key] before it
    indexes the list; a slice goes to the list as it is. *)
Definition baselist_getitem {A} (l : list A) (k : Py.key) : Py.result (Py.item A) :=
  match k with
  | Py.KIndex i =>
      Py.list_getitem l (Py.KIndex (if i <? 0 then Z.of_nat (length l) + i else i))
  | _ => Py.list_getitem l k
  end.

(** How [for x in document] runs.  The classes of the module define
    [__getitem__] and no [__iter__]; the document base class has an
    [__iter__], which yields the names of the fields, and that is what the
    loop gets: [ByFieldNames] is the iteration of the program.
    [BySequence] is the loop the sequence protocol would give
    ([document[0]], [document[1]], ... until [IndexError]) if the base
    class had no [__iter__]. *)
Inductive iteration :=
| BySequence
| ByFieldNames.

Definition isSome {A} (o : option A) : bool :=
  match o with Some _ => true | None => false end.

End Mongoengine.

Import Mongoengine.

(** ** [class MongoFiles(EmbeddedDocument)] *)
Module MongoFiles.

Record AbiFileField := { name : string; abiext : string; abiform : string }.

(** The class body, lines 68-76. *)
Definition _fields : list AbiFileField :=
  [ {| name := "gsr"; abiext := "GSR.nc"; abiform := "b" |};
    {| name := "hist"; abiext := "HIST"; abiform := "b" |};
    {| name := "phbst"; abiext := "PHBST.nc"; abiform := "b" |};
    {| name := "phdos"; abiext := "PHDOS.nc"; abiform := "b" |};
    {| name := "sigres"; abiext := "SIGRES.nc"; abiform := "b" |};
    {| name := "mdf"; abiext := "MDF.nc"; abiform := "b" |};
    {| name := "ddb"; abiext := "DDB"; abiform := "t" |};
    {| name := "output_file"; abiext := "abo"; abiform := "t" |} ].

Inductive slot := Gsr | Hist | Phbst | Phdos | Sigres | Mdf | Ddb | OutputFile.

Definition slot_name (s : slot) : string :=
  match s with
  | Gsr => "gsr" | Hist => "hist" | Phbst => "phbst" | Phdos => "phdos"
  | Sigres => "sigres" | Mdf => "mdf" | Ddb => "ddb" | OutputFile => "output_file"
  end.

Definition all_slots : list slot := [Gsr; Hist; Phbst; Phdos; Sigres; Mdf; Ddb; OutputFile].

(** The attribute a name denotes on an instance, if any. *)
Definition slot_of_name (attr : string) : option slot :=
  find (fun s => String.eqb (slot_name s) attr) all_slots.

(** An instance: per file field, what its proxy refers to. *)
Record t := {
  gsr : option content;
  hist : option content;
  phbst : option content;
  phdos : option content;
  sigres : option content;
  mdf : option content;
  ddb : option content;
  output_file : option content
}.

(** [cls()] *)
Definition new : t :=
  {| gsr := None; hist := None; phbst := None; phdos := None;
     sigres := None; mdf := None; ddb := None; output_file := None |}.

Definition get (self : t) (s : slot) : option content :=
  match s with
  | Gsr => gsr self | Hist => hist self | Phbst => phbst self | Phdos => phdos self
  | Sigres => sigres self | Mdf => mdf self | Ddb => ddb self | OutputFile => output_file self
  end.

Definition set (self : t) (s : slot) (v : option content) : t :=
  match s with
  | Gsr => {| gsr := v; hist := hist self; phbst := phbst self; phdos := phdos self;
              sigres := sigres self; mdf := mdf self; ddb := ddb self; output_file := output_file self |}
  | Hist => {| gsr := gsr self; hist := v; phbst := phbst self; phdos := phdos self;
               sigres := sigres self; mdf := mdf self; ddb := ddb self; output_file := output_file self |}
  | Phbst => {| gsr := gsr self; hist := hist self; phbst := v; phdos := phdos self;
                sigres := sigres self; mdf := mdf self; ddb := ddb self; output_file := output_file self |}
  | Phdos => {| gsr := gsr self; hist := hist self; phbst := phbst self; phdos := v;
                sigres := sigres self; mdf := mdf self; ddb := ddb self; output_file := output_file self |}
  | Sigres => {| gsr := gsr self; hist := hist self; phbst := phbst self; phdos := phdos self;
                 sigres := v; mdf := mdf self; ddb := ddb self; output_file := output_file self |}
  | Mdf => {| gsr := gsr self; hist := hist self; phbst := phbst self; phdos := phdos self;
              sigres := sigres self; mdf := v; ddb := ddb self; output_file := output_file self |}
  | Ddb => {| gsr := gsr self; hist := hist self; phbst := phbst self; phdos := phdos self;
              sigres := sigres self; mdf := mdf self; ddb := v; output_file := output_file self |}
  | OutputFile => {| gsr := gsr self; hist := hist self; phbst := phbst self; phdos := phdos self;
                     sigres := sigres self; mdf := mdf self; ddb := ddb self; output_file := v |}
  end.

(** [getattr(self, attr)]: a file field always reads as a proxy; any
    other name is not an attribute of the instance. *)
Definition getattr (self : t) (attr : string) : Py.result GridFSProxy :=
  match slot_of_name attr with
  | Some s => Py.Ok {| key := attr; grid_id := get self s |}
  | None => Py.Raise (Py.AttributeError "MongoFiles" attr)
  end.

(** The proxy is part of the instance: what was done to it shows in the
    field it belongs to. *)
Definition store (self : t) (proxy : GridFSProxy) : t :=
  match slot_of_name (key proxy) with
  | Some s => set self s (grid_id proxy)
  | None => self
  end.

(** The loop of [from_node], lines 83-93.  Every field of the class is an
    [AbiFileField], so the [isinstance] test never skips one. *)
Fixpoint from_node_fields (node : Abipy.Node) (fields : list AbiFileField) (new : t)
  : Py.result t :=
  match fields with
  | [] => Py.Ok new
  | field :: rest =>
      let ext := abiext field in
      let form := abiform field in
      let path := Abipy.has_abiext (Abipy.outdir node) ext in
      if Py.truthy path then
        let f := FromHandle path (String.append "r" form) in
        let fname := Py.lower (Py.replace ".nc" "" ext) in
        let? proxy := getattr new fname in
        let? proxy := put proxy f in
        from_node_fields node rest (store new proxy)
      else from_node_fields node rest new
  end.

(** [MongoFiles.from_node], lines 78-101. *)
Definition from_node (node : Abipy.Node) : Py.result t :=
  let? new := from_node_fields node _fields new in
  match Abipy.output_file node with
  | Some out =>
      let? proxy := getattr new "output_file" in
      let? proxy := put proxy (FromData (Abipy.read out)) in
      Py.Ok (store new proxy)
  | None => Py.Ok new
  end.

(** The proxies of the file fields of an instance, in the order of
    [_fields]. *)
Definition proxies (self : t) : list GridFSProxy :=
  map (fun s => {| key := slot_name s; grid_id := get self s |}) all_slots.

(** The loop of [delete], lines 105-110.  Every field is an
    [AbiFileField] and the value of a file field is a proxy, which has a
    [delete] method: neither test skips a field.  The [print] before the
    call is left out.  The fields are visited in the order of their
    declaration. *)
Fixpoint delete_fields (fields : list AbiFileField) (self : t) (st : Backend)
  : Backend * Py.result t :=
  match fields with
  | [] => (st, Py.Ok self)
  | field :: rest =>
      match getattr self (name field) with
      | Py.Raise e => (st, Py.Raise e)
      | Py.Ok value =>
          match proxy_delete value st with
          | (st', Py.Raise e) => (st', Py.Raise e)
          | (st', Py.Ok value') => delete_fields rest (store self value') st'
          end
      end
  end.

(** [MongoFiles.delete], lines 103-110. *)
Definition delete (self : t) (st : Backend) : Backend * Py.result t :=
  delete_fields _fields self st.

End MongoFiles.

(** ** [class MSONDict(BaseDict)] *)
Module MSONDict.

(** [MSONDict.to_mgobj], lines 114-115: the dictionary itself goes to the
    decoder.  [importer] is the set of modules the interpreter can
    import. *)
Definition to_mgobj (importer : Monty.Importer) (self : Json.dict) : Py.result Monty.obj :=
  Monty.process_decoded importer (Json.Dict self).

End MSONDict.

(** ** [class MongoTaskResults(EmbeddedDocument)] *)
Module MongoTaskResults.

Record t := {
  initial_structure : option Json.dict;
  final_structure : option Json.dict
}.

(** [MongoTaskResults.from_task], lines 157-173. *)
Definition from_task (task : Abipy.Task) : t :=
  let initial_structure := Abipy.structure_as_dict (Abipy.structure (Abipy.input task)) in
  let final_structure := initial_structure in
  let final_structure :=
    match Abipy.open_gsr task with
    | Some gsr => Abipy.structure_as_dict (Abipy.gsr_structure gsr)
    | None => final_structure
    end in
  {| initial_structure := Some initial_structure;
     final_structure := Some final_structure |}.

End MongoTaskResults.

(** ** [class MongoNode(Document)] *)
Module MongoNode.

Record t := {
  node_id : option Z;
  node_class : option string;
  status : option string;
  workdir : option string
}.

(** [MongoNode.from_node], lines 188-195. *)
Definition from_node (node : Abipy.Node) : t :=
  {| node_class := Some (Abipy.class_name node);
     node_id := Some (Abipy.node_id node);
     status := Some (Abipy.status_str (Abipy.status node));
     workdir := Some (Abipy.workdir node) |}.

End MongoNode.

(** ** [class MongoEmbeddedNode(EmbeddedDocument)] *)
Module MongoEmbeddedNode.

Record t := {
  node_id : option Z;
  node_class : option string;
  status : option string;
  workdir : option string
}.

(** [MongoEmbeddedNode.from_node], lines 213-220. *)
Definition from_node (node : Abipy.Node) : t :=
  {| node_class := Some (Abipy.class_name node);
     node_id := Some (Abipy.node_id node);
     status := Some (Abipy.status_str (Abipy.status node));
     workdir := Some (Abipy.workdir node) |}.

End MongoEmbeddedNode.

(** ** [class MongoTask(MongoEmbeddedNode)] *)
Module MongoTask.

(** The fields of the parent class are in [base]; the others are the
    class body, lines 226-242. *)
Record t := {
  base : MongoEmbeddedNode.t;
  input : option Json.dict;
  input_str : option string;
  report : option Json.dict;
  num_warnings : option Z;
  num_errors : option Z;
  num_comments : option Z;
  results : option MongoTaskResults.t;
  outfiles : option MongoFiles.t
}.

(** The inherited [from_node] with [cls = MongoTask]: the constructor
    gets the four node fields and nothing else.  A field that is given no
    value takes its default: the empty dictionary for a dictionary field,
    [None] for the others. *)
Definition from_node (node : Abipy.Node) : t :=
  {| base := MongoEmbeddedNode.from_node node;
     input := Some []; input_str := None; report := Some [];
     num_warnings := None; num_errors := None; num_comments := None;
     results := None; outfiles := None |}.

(** [setattr(new, a, v)] for an integer [v]: the three counters are the
    integer fields of the class. *)
Definition setattr_int (new : t) (a : string) (v : Z) : t :=
  if String.eqb a "num_warnings" then
    {| base := base new; input := input new; input_str := input_str new; report := report new;
       num_warnings := Some v; num_errors := num_errors new; num_comments := num_comments new;
       results := results new; outfiles := outfiles new |}
  else if String.eqb a "num_errors" then
    {| base := base new; input := input new; input_str := input_str new; report := report new;
       num_warnings := num_warnings new; num_errors := Some v; num_comments := num_comments new;
       results := results new; outfiles := outfiles new |}
  else if String.eqb a "num_comments" then
    {| base := base new; input := input new; input_str := input_str new; report := report new;
       num_warnings := num_warnings new; num_errors := num_errors new; num_comments := Some v;
       results := results new; outfiles := outfiles new |}
  else new.

(** The loop of lines 274-275. *)
Fixpoint copy_counters (names : list string) (report : Abipy.EventReport) (new : t)
  : Py.result t :=
  match names with
  | [] => Py.Ok new
  | a :: rest =>
      let? v := Abipy.report_getattr report a in
      copy_counters rest report (setattr_int new a v)
  end.

(** [MongoTask.from_task], lines 264-281. *)
Definition from_task (task : Abipy.Task) : Py.result t :=
  let new := from_node (Abipy.task_node task) in
  let new :=
    {| base := base new;
       input := Some (Abipy.input_as_dict (Abipy.input task));
       input_str := Some (Abipy.input_to_str (Abipy.input task));
       report := report new;
       num_warnings := num_warnings new; num_errors := num_errors new;
       num_comments := num_comments new;
       results := results new; outfiles := outfiles new |} in
  match Abipy.get_event_report task with
  | None => Py.Raise (Py.AttributeError "NoneType" "num_errors")
  | Some report =>
      let? new := copy_counters ["num_errors"; "num_comments"; "num_warnings"] report new in
      let results := MongoTaskResults.from_task task in
      let? outfiles := MongoFiles.from_node (Abipy.task_node task) in
      Py.Ok {| base := base new; input := input new; input_str := input_str new;
               report := Some (Abipy.report_as_dict report);
               num_warnings := num_warnings new; num_errors := num_errors new;
               num_comments := num_comments new;
               results := Some results; outfiles := Some outfiles |}
  end.

(** [task.outfiles = files] *)
Definition set_outfiles (self : t) (files : option MongoFiles.t) : t :=
  {| base := base self; input := input self; input_str := input_str self;
     report := report self;
     num_warnings := num_warnings self; num_errors := num_errors self;
     num_comments := num_comments self;
     results := results self; outfiles := files |}.

End MongoTask.

(** ** [class MongoWork(MongoEmbeddedNode)] *)
Module MongoWork.

Record t := {
  base : MongoEmbeddedNode.t;
  tasks : option (list MongoTask.t);
  outfiles : option MongoFiles.t
}.

(** The names the dictionary-style lookup knows: the declared fields and
    [_cls], which [allow_inheritance] adds. *)
Definition _fields_ordered : list string :=
  ["node_id"; "node_class"; "status"; "workdir"; "tasks"; "outfiles"; "_cls"].

(** The inherited [from_node] with [cls = MongoWork]; the list field
    takes its default, the empty list. *)
Definition from_node (node : Abipy.Node) : t :=
  {| base := MongoEmbeddedNode.from_node node; tasks := Some []; outfiles := None |}.

(** [[MongoTask.from_task(task) for task in work]] *)
Fixpoint tasks_from (ts : list Abipy.Task) : Py.result (list MongoTask.t) :=
  match ts with
  | [] => Py.Ok []
  | task :: rest =>
      let? t := MongoTask.from_task task in
      let? r := tasks_from rest in
      Py.Ok (t :: r)
  end.

(** [MongoWork.from_work], lines 293-299. *)
Definition from_work (work : Abipy.Work) : Py.result t :=
  let new := from_node (Abipy.work_node work) in
  let? tasks := tasks_from (Abipy.work_tasks work) in
  let? outfiles := MongoFiles.from_node (Abipy.work_node work) in
  Py.Ok {| base := base new; tasks := Some tasks; outfiles := Some outfiles |}.

(** What a lookup on a work record can return. *)
Inductive value :=
| VNone
| VLong (z : Z)
| VStr (s : string)
| VTasks (l : list MongoTask.t)
| VTask (task : MongoTask.t)
| VFiles (f : MongoFiles.t).

(** [self.tasks]: a list field without a value reads as the empty list. *)
Definition tasks_list (self : t) : list MongoTask.t :=
  match tasks self with Some l => l | None => [] end.

Definition getattr (self : t) (attr : string) : Py.result value :=
  if String.eqb attr "node_id" then
    Py.Ok (match MongoEmbeddedNode.node_id (base self) with Some z => VLong z | None => VNone end)
  else if String.eqb attr "node_class" then
    Py.Ok (match MongoEmbeddedNode.node_class (base self) with Some s => VStr s | None => VNone end)
  else if String.eqb attr "status" then
    Py.Ok (match MongoEmbeddedNode.status (base self) with Some s => VStr s | None => VNone end)
  else if String.eqb attr "workdir" then
    Py.Ok (match MongoEmbeddedNode.workdir (base self) with Some s => VStr s | None => VNone end)
  else if String.eqb attr "tasks" then Py.Ok (VTasks (tasks_list self))
  else if String.eqb attr "outfiles" then
    Py.Ok (match outfiles self with Some f => VFiles f | None => VNone end)
  else if String.eqb attr "_cls" then Py.Ok (VStr "MongoWork")
  else Py.Raise (Py.AttributeError "MongoWork" attr).

(** [super(MongoWork, self).__getitem__(name)] *)
Definition super_getitem (self : t) (name : Py.key) : Py.result value :=
  document_getitem _fields_ordered (getattr self) name.

(** [self.tasks[name]] *)
Definition tasks_getitem (self : t) (name : Py.key) : Py.result value :=
  match baselist_getitem (tasks_list self) name with
  | Py.Ok (Py.One task) => Py.Ok (VTask task)
  | Py.Ok (Py.Many l) => Py.Ok (VTasks l)
  | Py.Raise e => Py.Raise e
  end.

(** [MongoWork.__getitem__], lines 301-310. *)
Definition getitem (self : t) (name : Py.key) : Py.result value :=
  match super_getitem self name with
  | Py.Raise (Py.KeyError _) =>
      match tasks_getitem self name with
      | Py.Raise Py.IndexError => Py.Raise Py.IndexError
      | r => r
      end
  | r => r
  end.

End MongoWork.

(** ** [class MongoFlow(MongoNode)] *)
Module MongoFlow.

Record t := {
  base : MongoNode.t;
  works : option (list MongoWork.t);
  outfiles : option MongoFiles.t
}.

(** The names the dictionary-style lookup knows: the identifier every
    document has, the declared fields and [_cls].  The identifier is not
    represented in the record: it reads as [None], as on a record that has
    not been saved. *)
Definition _fields_ordered : list string :=
  ["id"; "node_id"; "node_class"; "status"; "workdir"; "works"; "outfiles"; "_cls"].

(** The inherited [from_node] with [cls = MongoFlow]; the list field
    takes its default, the empty list. *)
Definition from_node (node : Abipy.Node) : t :=
  {| base := MongoNode.from_node node; works := Some []; outfiles := None |}.

(** [[MongoWork.from_work(work) for work in flow]] *)
Fixpoint works_from (ws : list Abipy.Work) : Py.result (list MongoWork.t) :=
  match ws with
  | [] => Py.Ok []
  | work :: rest =>
      let? w := MongoWork.from_work work in
      let? r := works_from rest in
      Py.Ok (w :: r)
  end.

(** [MongoFlow.from_flow], lines 333-339. *)
Definition from_flow (flow : Abipy.Flow) : Py.result t :=
  let new := from_node (Abipy.flow_node flow) in
  let? works := works_from (Abipy.flow_works flow) in
  let? outfiles := MongoFiles.from_node (Abipy.flow_node flow) in
  Py.Ok {| base := base new; works := Some works; outfiles := Some outfiles |}.

Inductive value :=
| VNone
| VLong (z : Z)
| VStr (s : string)
| VWorks (l : list MongoWork.t)
| VWork (work : MongoWork.t)
| VFiles (f : MongoFiles.t).

(** [self.works] *)
Definition works_list (self : t) : list MongoWork.t :=
  match works self with Some l => l | None => [] end.

Definition getattr (self : t) (attr : string) : Py.result value :=
  if String.eqb attr "node_id" then
    Py.Ok (match MongoNode.node_id (base self) with Some z => VLong z | None => VNone end)
  else if String.eqb attr "node_class" then
    Py.Ok (match MongoNode.node_class (base self) with Some s => VStr s | None => VNone end)
  else if String.eqb attr "status" then
    Py.Ok (match MongoNode.status (base self) with Some s => VStr s | None => VNone end)
  else if String.eqb attr "workdir" then
    Py.Ok (match MongoNode.workdir (base self) with Some s => VStr s | None => VNone end)
  else if String.eqb attr "works" then Py.Ok (VWorks (works_list self))
  else if String.eqb attr "outfiles" then
    Py.Ok (match outfiles self with Some f => VFiles f | None => VNone end)
  else if String.eqb attr "id" then Py.Ok VNone
  else if String.eqb attr "_cls" then Py.Ok (VStr "MongoFlow")
  else Py.Raise (Py.AttributeError "MongoFlow" attr).

(** [super(MongoFlow, self).__getitem__(name)] *)
Definition super_getitem (self : t) (name : Py.key) : Py.result value :=
  document_getitem _fields_ordered (getattr self) name.

(** [self.works[name]] *)
Definition works_getitem (self : t) (name : Py.key) : Py.result value :=
  match baselist_getitem (works_list self) name with
  | Py.Ok (Py.One work) => Py.Ok (VWork work)
  | Py.Ok (Py.Many l) => Py.Ok (VWorks l)
  | Py.Raise e => Py.Raise e
  end.

(** [MongoFlow.__getitem__], lines 341-350. *)
Definition getitem (self : t) (name : Py.key) : Py.result value :=
  match super_getitem self name with
  | Py.Raise (Py.KeyError _) =>
      match works_getitem self name with
      | Py.Raise Py.IndexError => Py.Raise Py.IndexError
      | r => r
      end
  | r => r
  end.

(** [x.outfiles.delete()] for [x.outfiles = files]: an unset field reads
    as [None], which has no [delete]. *)
Definition outfiles_delete (files : option MongoFiles.t) (st : Backend)
  : Backend * Py.result MongoFiles.t :=
  match files with
  | Some f => MongoFiles.delete f st
  | None => (st, Py.Raise (Py.AttributeError "NoneType" "delete"))
  end.

(** [for task in work: task.outfiles.delete()] by the sequence protocol:
    [work[i]] for [i = 0, 1, ...] until [IndexError].  The task handed out
    is the one in the list, so its emptied proxies show in the work.
    [probes] bounds the number of [work[i]] calls. *)
Fixpoint delete_tasks_from (probes : nat) (i : nat) (work : MongoWork.t) (st : Backend)
  : Backend * Py.result MongoWork.t :=
  match probes with
  | O => (st, Py.Ok work)
  | S probes' =>
      match MongoWork.getitem work (Py.KIndex (Z.of_nat i)) with
      | Py.Raise Py.IndexError => (st, Py.Ok work)
      | Py.Raise e => (st, Py.Raise e)
      | Py.Ok (MongoWork.VTask task) =>
          match outfiles_delete (MongoTask.outfiles task) st with
          | (st', Py.Raise e) => (st', Py.Raise e)
          | (st', Py.Ok files') =>
              let task' := MongoTask.set_outfiles task (Some files') in
              let work' :=
                {| MongoWork.base := MongoWork.base work;
                   MongoWork.tasks := Some (<[i := task']> (MongoWork.tasks_list work));
                   MongoWork.outfiles := MongoWork.outfiles work |} in
              delete_tasks_from probes' (S i) work' st'
          end
      | Py.Ok _ => (st, Py.Raise (Py.AttributeError "object" "outfiles"))
      end
  end.

(** The inner loop of [delete], lines 368-370. *)
Definition delete_tasks (it : iteration) (work : MongoWork.t) (st : Backend)
  : Backend * Py.result MongoWork.t :=
  match it with
  | BySequence =>
      delete_tasks_from (S (length (MongoWork.tasks_list work))) O work st
  | ByFieldNames =>
      match MongoWork._fields_ordered with
      | [] => (st, Py.Ok work)
      | _ :: _ => (st, Py.Raise (Py.AttributeError "str" "outfiles"))
      end
  end.

(** The outer loop of [delete], lines 365-370. *)
Fixpoint delete_works (it : iteration) (ws : list MongoWork.t) (st : Backend)
  : Backend * Py.result (list MongoWork.t) :=
  match ws with
  | [] => (st, Py.Ok [])
  | work :: rest =>
      match outfiles_delete (MongoWork.outfiles work) st with
      | (st1, Py.Raise e) => (st1, Py.Raise e)
      | (st1, Py.Ok files') =>
          let work1 :=
            {| MongoWork.base := MongoWork.base work;
               MongoWork.tasks := MongoWork.tasks work;
               MongoWork.outfiles := Some files' |} in
          match delete_tasks it work1 st1 with
          | (st2, Py.Raise e) => (st2, Py.Raise e)
          | (st2, Py.Ok work2) =>
              match delete_works it rest st2 with
              | (st3, Py.Raise e) => (st3, Py.Raise e)
              | (st3, Py.Ok rest') => (st3, Py.Ok (work2 :: rest'))
              end
          end
      end
  end.

(** [MongoFlow.delete], lines 363-372.  The last statement calls
    [self.delete()], the method itself: [depth] is the number of frames the
    interpreter still grants, and the call that finds none raises. *)
Fixpoint delete (it : iteration) (depth : nat) (self : t) (st : Backend)
  : Backend * Py.result unit :=
  match depth with
  | O => (st, Py.Raise (Py.RuntimeError "maximum recursion depth exceeded"))
  | S depth' =>
      match delete_works it (works_list self) st with
      | (st', Py.Raise e) => (st', Py.Raise e)
      | (st', Py.Ok works') =>
          delete it depth'
            {| base := base self; works := Some works'; outfiles := outfiles self |} st'
      end
  end.

(** [MongoFlow.completed], lines 374-376.  The queryset is the list of
    the stored flow records it ranges over; [filter(status="Completed")]
    keeps the records whose [status] field is that string. *)
Definition completed (queryset : list t) : list t :=
  List.filter
    (fun doc =>
       match MongoNode.status (base doc) with
       | Some s => String.eqb s "Completed"
       | None => false
       end)
    queryset.

End MongoFlow.

(** ** Sample objects used in the examples below *)
Module Samples.

(** A directory given by its files, one per extension. *)
Definition directory (files : list (string * string)) : Abipy.Directory :=
  {| Abipy.has_abiext := fun ext =>
       match find (fun f => String.eqb (fst f) ext) files with
       | Some f => snd f
       | None => ""
       end |}.

Definition completed : Abipy.Status :=
  {| Abipy.status_code := 10; Abipy.status_str := "Completed" |}.

Definition running : Abipy.Status :=
  {| Abipy.status_code := 6; Abipy.status_str := "Running" |}.

Definition si2 : Abipy.Structure :=
  {| Abipy.structure_as_dict :=
       [ ("@module", Json.Str "pymatgen.core.structure");
         ("@class", Json.Str "Structure");
         ("formula", Json.Str "Si2") ] |}.

Definition scf_input : Abipy.AbinitInput :=
  {| Abipy.input_as_dict := [ ("ecut", Json.Int 8) ];
     Abipy.input_to_str := "ecut 8";
     Abipy.structure := si2 |}.

Definition report_2_0_5 : Abipy.EventReport :=
  {| Abipy.num_errors := 0; Abipy.num_comments := 5; Abipy.num_warnings := 2;
     Abipy.report_as_dict := [ ("events", Json.List []) ] |}.

(** The main output of a task, read as bytes and read as text. *)
Definition output_bytes (path : string) : Abipy.File :=
  {| Abipy.file_path := path; Abipy.read := Py.Bytes "Calculation completed." |}.

Definition output_text (path : string) : Abipy.File :=
  {| Abipy.file_path := path; Abipy.read := Py.Str "Calculation completed." |}.

(** A task with a GSR file in its output directory and its main output
    in the working directory. *)
Definition task_node : Abipy.Node :=
  {| Abipy.class_name := "ScfTask";
     Abipy.node_id := 42;
     Abipy.status := completed;
     Abipy.workdir := "/scratch/flow/w0/t0";
     Abipy.outdir := directory [ ("GSR.nc", "/scratch/flow/w0/t0/outdata/out_GSR.nc") ];
     Abipy.output_file := Some (output_bytes "/scratch/flow/w0/t0/run.abo") |}.

Definition task : Abipy.Task :=
  {| Abipy.task_node := task_node;
     Abipy.input := scf_input;
     Abipy.get_event_report := Some report_2_0_5;
     Abipy.open_gsr := None |}.

(** A task whose output directory is empty. *)
Definition bare_task_node : Abipy.Node :=
  {| Abipy.class_name := "ScfTask";
     Abipy.node_id := 43;
     Abipy.status := completed;
     Abipy.workdir := "/scratch/flow/w0/t1";
     Abipy.outdir := directory [];
     Abipy.output_file := Some (output_bytes "/scratch/flow/w0/t1/run.abo") |}.

Definition bare_task : Abipy.Task :=
  {| Abipy.task_node := bare_task_node;
     Abipy.input := scf_input;
     Abipy.get_event_report := Some report_2_0_5;
     Abipy.open_gsr := None |}.

(** A task whose [get_event_report()] is [None]. *)
Definition task_without_report : Abipy.Task :=
  {| Abipy.task_node := bare_task_node;
     Abipy.input := scf_input;
     Abipy.get_event_report := None;
     Abipy.open_gsr := None |}.

(** A task with a DDB file in its output directory, and one whose main
    output reads as text. *)
Definition ddb_task_node : Abipy.Node :=
  {| Abipy.class_name := "PhononTask";
     Abipy.node_id := 46;
     Abipy.status := completed;
     Abipy.workdir := "/scratch/flow/w0/t2";
     Abipy.outdir := directory [ ("DDB", "/scratch/flow/w0/t2/outdata/out_DDB");
                                 ("abo", "/scratch/flow/w0/t2/outdata/out.abo") ];
     Abipy.output_file := None |}.

Definition text_task_node : Abipy.Node :=
  {| Abipy.class_name := "ScfTask";
     Abipy.node_id := 47;
     Abipy.status := completed;
     Abipy.workdir := "/scratch/flow/w0/t3";
     Abipy.outdir := directory [];
     Abipy.output_file := Some (output_text "/scratch/flow/w0/t3/run.abo") |}.

(** A work: no [output_file] attribute. *)
Definition work_node : Abipy.Node :=
  {| Abipy.class_name := "Work";
     Abipy.node_id := 41;
     Abipy.status := completed;
     Abipy.workdir := "/scratch/flow/w0";
     Abipy.outdir := directory [ ("GSR.nc", "/scratch/flow/w0/outdata/out_GSR.nc") ];
     Abipy.output_file := None |}.

Definition work : Abipy.Work :=
  {| Abipy.work_node := work_node; Abipy.work_tasks := [ task ] |}.

(** A work of two tasks. *)
Definition two_task_work : Abipy.Work :=
  {| Abipy.work_node := work_node; Abipy.work_tasks := [ bare_task; task ] |}.

Definition flow_node : Abipy.Node :=
  {| Abipy.class_name := "Flow";
     Abipy.node_id := 40;
     Abipy.status := completed;
     Abipy.workdir := "/scratch/flow";
     Abipy.outdir := directory [];
     Abipy.output_file := None |}.

Definition flow : Abipy.Flow :=
  {| Abipy.flow_node := flow_node; Abipy.flow_works := [ work ] |}.

(** A work whose output directory holds a file with the [abo] extension. *)
Definition work_node_with_abo : Abipy.Node :=
  {| Abipy.class_name := "Work";
     Abipy.node_id := 44;
     Abipy.status := completed;
     Abipy.workdir := "/scratch/flow/w1";
     Abipy.outdir := directory [ ("abo", "/scratch/flow/w1/outdata/out.abo") ];
     Abipy.output_file := None |}.

(** A stored dictionary without the type tag. *)
Definition untagged_structure : Json.dict :=
  [ ("formula", Json.Str "Si2"); ("sites", Json.List []) ].

(** A work record and a flow record, as the conversions build them. *)
Definition work_record : MongoWork.t :=
  Eval vm_compute in
  match MongoWork.from_work work with
  | Py.Ok w => w
  | Py.Raise _ => MongoWork.from_node work_node
  end.

Definition two_task_work_record : MongoWork.t :=
  Eval vm_compute in
  match MongoWork.from_work two_task_work with
  | Py.Ok w => w
  | Py.Raise _ => MongoWork.from_node work_node
  end.

Definition flow_record : MongoFlow.t :=
  Eval vm_compute in
  match MongoFlow.from_flow flow with
  | Py.Ok f => f
  | Py.Raise _ => MongoFlow.from_node flow_node
  end.

(** A flow of two works, and the record [from_flow] builds for it. *)
Definition second_work_node : Abipy.Node :=
  {| Abipy.class_name := "Work";
     Abipy.node_id := 45;
     Abipy.status := completed;
     Abipy.workdir := "/scratch/flow/w1";
     Abipy.outdir := directory [ ("GSR.nc", "/scratch/flow/w1/outdata/out_GSR.nc") ];
     Abipy.output_file := None |}.

Definition two_work_flow : Abipy.Flow :=
  {| Abipy.flow_node := flow_node;
     Abipy.flow_works :=
       [ work; {| Abipy.work_node := second_work_node; Abipy.work_tasks := [ task ] |} ] |}.

Definition two_work_flow_record : MongoFlow.t :=
  Eval vm_compute in
  match MongoFlow.from_flow two_work_flow with
  | Py.Ok f => f
  | Py.Raise _ => MongoFlow.from_node flow_node
  end.

Definition second_work_record : MongoWork.t :=
  Eval vm_compute in
  match MongoFlow.works_list two_work_flow_record with
  | [_; w] => w
  | _ => MongoWork.from_node second_work_node
  end.

(** A flow that is still running, and the record for it. *)
Definition running_flow : Abipy.Flow :=
  {| Abipy.flow_node :=
       {| Abipy.class_name := "Flow";
          Abipy.node_id := 50;
          Abipy.status := running;
          Abipy.workdir := "/scratch/other";
          Abipy.outdir := directory [];
          Abipy.output_file := None |};
     Abipy.flow_works := [] |}.

Definition running_flow_record : MongoFlow.t :=
  Eval vm_compute in
  match MongoFlow.from_flow running_flow with
  | Py.Ok f => f
  | Py.Raise _ => MongoFlow.from_node flow_node
  end.

(** A file store where every call succeeds, and one where every call
    fails; no call has been made yet. *)
Definition reliable_store : Backend := {| fails := fun _ => false; calls := [] |}.
Definition failing_store : Backend := {| fails := fun _ => true; calls := [] |}.

(** A file-set record with three files, and a store whose third call
    fails. *)
Definition three_files : MongoFiles.t :=
  {| MongoFiles.gsr := Some (FromData (Py.Bytes "a")); MongoFiles.hist := None;
     MongoFiles.phbst := Some (FromData (Py.Bytes "b")); MongoFiles.phdos := None;
     MongoFiles.sigres := None; MongoFiles.mdf := None; MongoFiles.ddb := None;
     MongoFiles.output_file := Some (FromData (Py.Bytes "c")) |}.

Definition third_call_fails : Backend :=
  {| fails := fun n => Nat.eqb n 2; calls := [] |}.

(** No module can be imported. *)
Definition no_modules : Monty.Importer := fun _ => None.

End Samples.

(** ** Records the statements below refer to *)

(** The six fields opened in binary mode come first: after them the
    record refers to the file of each of their extensions the directory
    has. *)
Definition binary_fields (node : Abipy.Node) : MongoFiles.t :=
  let pick ext :=
    if Py.truthy (Abipy.has_abiext (Abipy.outdir node) ext)
    then Some (FromHandle (Abipy.has_abiext (Abipy.outdir node) ext) "rb")
    else None in
  {| MongoFiles.gsr := pick "GSR.nc";
     MongoFiles.hist := pick "HIST";
     MongoFiles.phbst := pick "PHBST.nc";
     MongoFiles.phdos := pick "PHDOS.nc";
     MongoFiles.sigres := pick "SIGRES.nc";
     MongoFiles.mdf := pick "MDF.nc";
     MongoFiles.ddb := None;
     MongoFiles.output_file := None |}.

(** What the node's own [output_file] contributes. *)
Definition with_output (new : MongoFiles.t) (out : Abipy.File) : MongoFiles.t :=
  MongoFiles.set new MongoFiles.OutputFile (Some (FromData (Abipy.read out))).

(** What a conversion needs of its input.  The file store takes the
    files of a node when the output directory has neither a DDB file nor a
    file with the [abo] extension and the node's [output_file], if it has
    one, reads bytes; a task also needs an event report. *)
Definition node_storable (node : Abipy.Node) : bool :=
  negb (Py.truthy (Abipy.has_abiext (Abipy.outdir node) "DDB")) &&
  negb (Py.truthy (Abipy.has_abiext (Abipy.outdir node) "abo")) &&
  match Abipy.output_file node with
  | Some out => match Abipy.read out with Py.Bytes _ => true | Py.Str _ => false end
  | None => true
  end.

Definition task_convertible (task : Abipy.Task) : bool :=
  isSome (Abipy.get_event_report task) && node_storable (Abipy.task_node task).

Definition work_convertible (work : Abipy.Work) : bool :=
  node_storable (Abipy.work_node work) && forallb task_convertible (Abipy.work_tasks work).

Definition flow_convertible (flow : Abipy.Flow) : bool :=
  node_storable (Abipy.flow_node flow) && forallb work_convertible (Abipy.flow_works flow).

(** * Properties *)

(** ** The helpers of the runtime, on the values the module uses *)

(** The attribute name the loop of [from_node] computes from each
    extension: the name of the field, except for the last one. *)
Example fnames_of_fields :
  map (fun field => (MongoFiles.name field,
                     Py.lower (Py.replace ".nc" "" (MongoFiles.abiext field))))
      MongoFiles._fields
  = [ ("gsr", "gsr"); ("hist", "hist"); ("phbst", "phbst"); ("phdos", "phdos");
      ("sigres", "sigres"); ("mdf", "mdf"); ("ddb", "ddb"); ("output_file", "abo") ].
Proof. reflexivity. Qed.

(** The mode each field is opened in, and whether it reads bytes. *)
Example modes_of_fields :
  map (fun field => (MongoFiles.name field,
                     Py.binary_mode (String.append "r" (MongoFiles.abiform field))))
      MongoFiles._fields
  = [ ("gsr", true); ("hist", true); ("phbst", true); ("phdos", true);
      ("sigres", true); ("mdf", true); ("ddb", false); ("output_file", false) ].
Proof. reflexivity. Qed.

Example replace_every_occurrence : Py.replace ".nc" "" "a.nc.b.nc" = "a.b".
Proof. reflexivity. Qed.

Example replace_empty_pattern : Py.replace "" "-" "ab" = "-a-b-".
Proof. reflexivity. Qed.

Example list_getitem_last : Py.list_getitem [10; 20; 30] (Py.KIndex (-1)) = Py.Ok (Py.One 30).
Proof. reflexivity. Qed.

Example list_getitem_out_of_range :
  Py.list_getitem [10; 20; 30] (Py.KIndex 3) = Py.Raise Py.IndexError /\
  Py.list_getitem [10; 20; 30] (Py.KIndex (-4)) = Py.Raise Py.IndexError.
Proof. split; reflexivity. Qed.

Example list_getitem_slices :
  Py.list_getitem [10; 20; 30] (Py.KSlice None None (Some (-1))) = Py.Ok (Py.Many [30; 20; 10]) /\
  Py.list_getitem [10; 20; 30] (Py.KSlice (Some 1) None None) = Py.Ok (Py.Many [20; 30]) /\
  Py.list_getitem [10; 20; 30] (Py.KSlice (Some (-2)) (Some 5) None) = Py.Ok (Py.Many [20; 30]) /\
  Py.list_getitem [10; 20; 30] (Py.KSlice None None (Some 2)) = Py.Ok (Py.Many [10; 30]) /\
  Py.list_getitem [10; 20; 30] (Py.KSlice None None (Some 0))
    = Py.Raise (Py.ValueError "slice step cannot be zero").
Proof. repeat split. Qed.

(** The list of a list field rewrites a negative index before it indexes:
    [-4] on three elements becomes [-1]. *)
Example baselist_getitem_negative :
  baselist_getitem [10; 20; 30] (Py.KIndex (-1)) = Py.Ok (Py.One 30) /\
  baselist_getitem [10; 20; 30] (Py.KIndex (-4)) = Py.Ok (Py.One 30) /\
  baselist_getitem [10; 20; 30] (Py.KIndex (-6)) = Py.Ok (Py.One 10) /\
  baselist_getitem [10; 20; 30] (Py.KIndex (-7)) = Py.Raise Py.IndexError /\
  baselist_getitem [10; 20; 30] (Py.KIndex 3) = Py.Raise Py.IndexError.
Proof. repeat split. Qed.

(** The sample records are what the conversions return. *)
Example sample_records :
  MongoWork.from_work Samples.work = Py.Ok Samples.work_record /\
  MongoWork.from_work Samples.two_task_work = Py.Ok Samples.two_task_work_record /\
  MongoFlow.from_flow Samples.flow = Py.Ok Samples.flow_record /\
  MongoFlow.from_flow Samples.two_work_flow = Py.Ok Samples.two_work_flow_record /\
  MongoFlow.from_flow Samples.running_flow = Py.Ok Samples.running_flow_record /\
  MongoFlow.works_list Samples.two_work_flow_record
    = [ Samples.work_record; Samples.second_work_record ].
Proof. repeat split; vm_compute; reflexivity. Qed.

(** ** Node records *)

(** C2: [from_node] copies the identifier, the class name, the string of
    the status and the working directory of the node into the four fields
    of the record, for [MongoNode] and for [MongoEmbeddedNode]; read back,
    the fields are the source values. *)
Theorem from_node_round_trip (node : Abipy.Node) :
  (MongoNode.node_id (MongoNode.from_node node) = Some (Abipy.node_id node) /\
   MongoNode.node_class (MongoNode.from_node node) = Some (Abipy.class_name node) /\
   MongoNode.status (MongoNode.from_node node) = Some (Abipy.status_str (Abipy.status node)) /\
   MongoNode.workdir (MongoNode.from_node node) = Some (Abipy.workdir node)) /\
  (MongoEmbeddedNode.node_id (MongoEmbeddedNode.from_node node) = Some (Abipy.node_id node) /\
   MongoEmbeddedNode.node_class (MongoEmbeddedNode.from_node node) = Some (Abipy.class_name node) /\
   MongoEmbeddedNode.status (MongoEmbeddedNode.from_node node)
     = Some (Abipy.status_str (Abipy.status node)) /\
   MongoEmbeddedNode.workdir (MongoEmbeddedNode.from_node node) = Some (Abipy.workdir node)).
Proof. repeat split. Qed.

(** The same four values come back through the dictionary-style lookup of
    the records that inherit [from_node]. *)
Lemma from_node_lookup (node : Abipy.Node) :
  MongoWork.getitem (MongoWork.from_node node) (Py.KName "node_id")
    = Py.Ok (MongoWork.VLong (Abipy.node_id node)) /\
  MongoWork.getitem (MongoWork.from_node node) (Py.KName "node_class")
    = Py.Ok (MongoWork.VStr (Abipy.class_name node)) /\
  MongoFlow.getitem (MongoFlow.from_node node) (Py.KName "status")
    = Py.Ok (MongoFlow.VStr (Abipy.status_str (Abipy.status node))) /\
  MongoFlow.getitem (MongoFlow.from_node node) (Py.KName "workdir")
    = Py.Ok (MongoFlow.VStr (Abipy.workdir node)).
Proof. repeat split. Qed.

(** ** Task results *)

(** C6: for a task without [open_gsr], the results record has a final
    structure, and it is the initial structure. *)
Theorem final_structure_defaults_to_initial (task : Abipy.Task) :
  Abipy.open_gsr task = None ->
  MongoTaskResults.final_structure (MongoTaskResults.from_task task)
    = MongoTaskResults.initial_structure (MongoTaskResults.from_task task) /\
  MongoTaskResults.final_structure (MongoTaskResults.from_task task)
    = Some (Abipy.structure_as_dict (Abipy.structure (Abipy.input task))).
Proof.
  intros Hgsr. unfold MongoTaskResults.from_task. rewrite Hgsr. split; reflexivity.
Qed.

Lemma final_structure_defaults_to_initial_witness :
  MongoTaskResults.final_structure (MongoTaskResults.from_task Samples.task)
    = MongoTaskResults.initial_structure (MongoTaskResults.from_task Samples.task) /\
  MongoTaskResults.final_structure (MongoTaskResults.from_task Samples.task)
    = Some (Abipy.structure_as_dict Samples.si2).
Proof. apply (final_structure_defaults_to_initial Samples.task). reflexivity. Defined.

(** With [open_gsr], the final structure is the one of the GSR file. *)
Lemma final_structure_from_gsr (task : Abipy.Task) (gsr : Abipy.GsrFile) :
  Abipy.open_gsr task = Some gsr ->
  MongoTaskResults.final_structure (MongoTaskResults.from_task task)
    = Some (Abipy.structure_as_dict (Abipy.gsr_structure gsr)).
Proof. intros Hgsr. unfold MongoTaskResults.from_task. now rewrite Hgsr. Qed.

(** ** File-set records: conversion *)

(** [set] with the value a field already has changes nothing. *)
Lemma set_get_id (self : MongoFiles.t) (s : MongoFiles.slot) :
  MongoFiles.set self s (MongoFiles.get self s) = self.
Proof. destruct self, s; reflexivity. Qed.

(** One round of the loop of [from_node], for a field that is opened in
    binary mode and whose extension names an attribute of the record that
    holds no file yet. *)
Lemma from_node_fields_step (node : Abipy.Node) (field : MongoFiles.AbiFileField)
    (rest : list MongoFiles.AbiFileField) (new : MongoFiles.t) (s : MongoFiles.slot) :
  MongoFiles.slot_of_name (Py.lower (Py.replace ".nc" "" (MongoFiles.abiext field))) = Some s ->
  MongoFiles.get new s = None ->
  Py.binary_mode (String.append "r" (MongoFiles.abiform field)) = true ->
  MongoFiles.from_node_fields node (field :: rest) new =
  MongoFiles.from_node_fields node rest
    (MongoFiles.set new s
       (if Py.truthy (Abipy.has_abiext (Abipy.outdir node) (MongoFiles.abiext field))
        then Some (FromHandle (Abipy.has_abiext (Abipy.outdir node) (MongoFiles.abiext field))
                     (String.append "r" (MongoFiles.abiform field)))
        else None)).
Proof.
  intros Hslot Hfree Hmode. cbn [MongoFiles.from_node_fields].
  destruct (Py.truthy _).
  - unfold MongoFiles.getattr. rewrite Hslot, Hfree. cbn [Py.bind].
    unfold put. cbn [grid_id key refused]. rewrite Hmode. cbn [Py.bind].
    unfold MongoFiles.store. cbn [key grid_id]. now rewrite Hslot.
  - now rewrite <- Hfree, set_get_id.
Qed.

(** The outcome of [MongoFiles.from_node], case by case, in the order the
    code meets the cases: a DDB file in the output directory is opened in
    text mode and refused by the store; a file with the [abo] extension
    makes the loop ask for the attribute [abo]; an [output_file] that reads
    text is refused by the store; otherwise the conversion returns the
    record. *)
Lemma from_node_outcome (node : Abipy.Node) :
  MongoFiles.from_node node =
    if Py.truthy (Abipy.has_abiext (Abipy.outdir node) "DDB")
    then Py.Raise (Py.TypeError "a bytes-like object is required, not 'str'")
    else if Py.truthy (Abipy.has_abiext (Abipy.outdir node) "abo")
    then Py.Raise (Py.AttributeError "MongoFiles" "abo")
    else
      match Abipy.output_file node with
      | Some out =>
          match Abipy.read out with
          | Py.Str _ =>
              Py.Raise (Py.TypeError "must specify an encoding for file in order to write str")
          | Py.Bytes _ => Py.Ok (with_output (binary_fields node) out)
          end
      | None => Py.Ok (binary_fields node)
      end.
Proof.
  unfold MongoFiles.from_node, MongoFiles._fields.
  rewrite (from_node_fields_step _ _ _ _ MongoFiles.Gsr) by reflexivity.
  rewrite (from_node_fields_step _ _ _ _ MongoFiles.Hist) by reflexivity.
  rewrite (from_node_fields_step _ _ _ _ MongoFiles.Phbst) by reflexivity.
  rewrite (from_node_fields_step _ _ _ _ MongoFiles.Phdos) by reflexivity.
  rewrite (from_node_fields_step _ _ _ _ MongoFiles.Sigres) by reflexivity.
  rewrite (from_node_fields_step _ _ _ _ MongoFiles.Mdf) by reflexivity.
  cbn [MongoFiles.from_node_fields MongoFiles.abiext MongoFiles.abiform].
  destruct (Py.truthy (Abipy.has_abiext (Abipy.outdir node) "DDB")); [reflexivity |].
  destruct (Py.truthy (Abipy.has_abiext (Abipy.outdir node) "abo")); [reflexivity |].
  cbn [Py.bind].
  destruct (Abipy.output_file node) as [out |]; [| reflexivity].
  unfold with_output. cbn. unfold put. cbn.
  destruct (Abipy.read out); reflexivity.
Qed.

Lemma truthy_false (s : string) : Py.truthy s = false -> s = "".
Proof. destruct s; [reflexivity | discriminate]. Qed.

(** A conversion that returns a record met none of the three refusals. *)
Lemma from_node_ok_inv (node : Abipy.Node) (new : MongoFiles.t) :
  MongoFiles.from_node node = Py.Ok new ->
  Abipy.has_abiext (Abipy.outdir node) "DDB" = "" /\
  Abipy.has_abiext (Abipy.outdir node) "abo" = "" /\
  new = match Abipy.output_file node with
        | Some out => with_output (binary_fields node) out
        | None => binary_fields node
        end /\
  (forall out, Abipy.output_file node = Some out -> exists b, Abipy.read out = Py.Bytes b).
Proof.
  rewrite from_node_outcome.
  destruct (Py.truthy (Abipy.has_abiext (Abipy.outdir node) "DDB")) eqn:Hddb; [discriminate |].
  destruct (Py.truthy (Abipy.has_abiext (Abipy.outdir node) "abo")) eqn:Habo; [discriminate |].
  destruct (Abipy.output_file node) as [out |].
  - destruct (Abipy.read out) as [s | b] eqn:Hread; [discriminate |].
    intros [= <-]. repeat split; try now apply truthy_false.
    intros out' [= <-]. now exists b.
  - intros [= <-]. repeat split; try now apply truthy_false. discriminate.
Qed.

(** The conversion returns a record when the output directory has neither
    a DDB file nor a file with the [abo] extension and the node's
    [output_file], if it has one, reads bytes. *)
Lemma from_node_ok (node : Abipy.Node) :
  Abipy.has_abiext (Abipy.outdir node) "DDB" = "" ->
  Abipy.has_abiext (Abipy.outdir node) "abo" = "" ->
  (forall out, Abipy.output_file node = Some out -> exists b, Abipy.read out = Py.Bytes b) ->
  MongoFiles.from_node node =
    Py.Ok match Abipy.output_file node with
          | Some out => with_output (binary_fields node) out
          | None => binary_fields node
          end.
Proof.
  intros Hddb Habo Hout. rewrite from_node_outcome, Hddb, Habo. cbn [Py.truthy].
  destruct (Abipy.output_file node) as [out |]; [| reflexivity].
  destruct (Hout out eq_refl) as [b ->]. reflexivity.
Qed.

(** The fields of a returned record, one by one. *)
Lemma from_node_slot_values (node : Abipy.Node) (new : MongoFiles.t) :
  MongoFiles.from_node node = Py.Ok new ->
  MongoFiles.output_file new =
    match Abipy.output_file node with
    | Some out => Some (FromData (Abipy.read out))
    | None => None
    end /\
  (forall field s, In field MongoFiles._fields ->
     MongoFiles.name field <> "output_file" ->
     MongoFiles.slot_of_name (MongoFiles.name field) = Some s ->
     MongoFiles.get new s =
       if Py.truthy (Abipy.has_abiext (Abipy.outdir node) (MongoFiles.abiext field))
       then Some (FromHandle (Abipy.has_abiext (Abipy.outdir node) (MongoFiles.abiext field))
                    (String.append "r" (MongoFiles.abiform field)))
       else None).
Proof.
  intros Hnew. destruct (from_node_ok_inv node new Hnew) as (Hddb & Habo & -> & _). split.
  - destruct (Abipy.output_file node); reflexivity.
  - intros field s Hin Hname Hs. cbn in Hin.
    assert (Hget : forall out,
              MongoFiles.get (with_output (binary_fields node) out) s
              = MongoFiles.get (binary_fields node) s \/ s = MongoFiles.OutputFile).
    { intros out. destruct s; (now left) || now right. }
    assert (Hvalue : MongoFiles.get (binary_fields node) s =
              if Py.truthy (Abipy.has_abiext (Abipy.outdir node) (MongoFiles.abiext field))
              then Some (FromHandle (Abipy.has_abiext (Abipy.outdir node) (MongoFiles.abiext field))
                           (String.append "r" (MongoFiles.abiform field)))
              else None).
    { do 6 (destruct Hin as [<- | Hin]; [injection Hs as <-; reflexivity |]).
      destruct Hin as [<- | Hin].
      - injection Hs as <-. cbn. now rewrite Hddb.
      - destruct Hin as [<- | []]. now elim Hname. }
    destruct (Abipy.output_file node) as [out |]; [| exact Hvalue].
    destruct (Hget out) as [-> | ->]; [exact Hvalue |].
    exfalso. do 7 (destruct Hin as [<- | Hin]; [discriminate Hs |]).
    destruct Hin as [<- | []]. now elim Hname.
Qed.




(** C4: in every conversion that returns a record, the [output_file]
    field holds what the node's own [output_file] reads (nothing when the
    node has no such attribute) and never a file of the output directory,
    while each other field holds the file the output directory has for its
    extension. *)
Theorem output_file_from_accessor (node : Abipy.Node) (new : MongoFiles.t) :
  MongoFiles.from_node node = Py.Ok new ->
  MongoFiles.output_file new =
    match Abipy.output_file node with
    | Some out => Some (FromData (Abipy.read out))
    | None => None
    end /\
  (forall path mode, MongoFiles.output_file new <> Some (FromHandle path mode)) /\
  (forall field s, In field MongoFiles._fields ->
     MongoFiles.name field <> "output_file" ->
     MongoFiles.slot_of_name (MongoFiles.name field) = Some s ->
     MongoFiles.get new s =
       if Py.truthy (Abipy.has_abiext (Abipy.outdir node) (MongoFiles.abiext field))
       then Some (FromHandle (Abipy.has_abiext (Abipy.outdir node) (MongoFiles.abiext field))
                    (String.append "r" (MongoFiles.abiform field)))
       else None).
Proof.
  intros Hnew. destruct (from_node_slot_values node new Hnew) as [Hout Hdir].
  split; [exact Hout |]. split; [| exact Hdir].
  intros path mode. rewrite Hout. destruct (Abipy.output_file node); discriminate.
Qed.

Lemma output_file_from_accessor_witness :
  MongoFiles.output_file
    {| MongoFiles.gsr := Some (FromHandle "/scratch/flow/w0/t0/outdata/out_GSR.nc" "rb");
       MongoFiles.hist := None; MongoFiles.phbst := None; MongoFiles.phdos := None;
       MongoFiles.sigres := None; MongoFiles.mdf := None; MongoFiles.ddb := None;
       MongoFiles.output_file := Some (FromData (Py.Bytes "Calculation completed.")) |}
  = Some (FromData (Abipy.read (Samples.output_bytes "/scratch/flow/w0/t0/run.abo"))).
Proof.
  exact (proj1 (output_file_from_accessor Samples.task_node _ eq_refl)).
Defined.

(** C10 at a work whose output directory holds a file with the [abo]
    extension: the work has no [output_file] attribute, and the conversion
    raises instead of returning a record. *)
Theorem from_node_work_with_abo_raises :
  Abipy.output_file Samples.work_node_with_abo = None /\
  MongoFiles.from_node Samples.work_node_with_abo
    = Py.Raise (Py.AttributeError "MongoFiles" "abo") /\
  Py.is_ok (MongoWork.from_work
              {| Abipy.work_node := Samples.work_node_with_abo;
                 Abipy.work_tasks := [] |}) = false.
Proof. repeat split. Qed.

(** Without such a file, and without a DDB file, the conversion of a node
    that has no [output_file] returns a record whose [output_file] field
    is empty. *)
Lemma from_node_without_accessor (node : Abipy.Node) :
  Abipy.output_file node = None ->
  Abipy.has_abiext (Abipy.outdir node) "DDB" = "" ->
  Abipy.has_abiext (Abipy.outdir node) "abo" = "" ->
  exists new, MongoFiles.from_node node = Py.Ok new /\ MongoFiles.output_file new = None.
Proof.
  intros Hacc Hddb Habo. eexists. split.
  - apply (from_node_ok node Hddb Habo). intros out Hout. congruence.
  - now rewrite Hacc.
Qed.

(** ** Task records *)

(** [from_task] for a task with an event report: the record, given the
    file-set record of the task. *)
Lemma from_task_with_report (task : Abipy.Task) (report : Abipy.EventReport) :
  Abipy.get_event_report task = Some report ->
  MongoTask.from_task task =
    let? outfiles := MongoFiles.from_node (Abipy.task_node task) in
    Py.Ok {| MongoTask.base := MongoEmbeddedNode.from_node (Abipy.task_node task);
             MongoTask.input := Some (Abipy.input_as_dict (Abipy.input task));
             MongoTask.input_str := Some (Abipy.input_to_str (Abipy.input task));
             MongoTask.report := Some (Abipy.report_as_dict report);
             MongoTask.num_warnings := Some (Abipy.num_warnings report);
             MongoTask.num_errors := Some (Abipy.num_errors report);
             MongoTask.num_comments := Some (Abipy.num_comments report);
             MongoTask.results := Some (MongoTaskResults.from_task task);
             MongoTask.outfiles := Some outfiles |}.
Proof. intros Hreport. unfold MongoTask.from_task. rewrite Hreport. reflexivity. Qed.

(** A task whose [get_event_report()] is [None] has no counters to copy:
    the conversion raises. *)
Lemma from_task_without_report (task : Abipy.Task) :
  Abipy.get_event_report task = None ->
  MongoTask.from_task task = Py.Raise (Py.AttributeError "NoneType" "num_errors").
Proof. intros Hreport. unfold MongoTask.from_task. now rewrite Hreport. Qed.

(** A record [from_task] returns comes from a report and from the
    file-set record of the task. *)
Lemma from_task_parts (task : Abipy.Task) (new : MongoTask.t) :
  MongoTask.from_task task = Py.Ok new ->
  exists report files,
    Abipy.get_event_report task = Some report /\
    MongoFiles.from_node (Abipy.task_node task) = Py.Ok files /\
    new = {| MongoTask.base := MongoEmbeddedNode.from_node (Abipy.task_node task);
             MongoTask.input := Some (Abipy.input_as_dict (Abipy.input task));
             MongoTask.input_str := Some (Abipy.input_to_str (Abipy.input task));
             MongoTask.report := Some (Abipy.report_as_dict report);
             MongoTask.num_warnings := Some (Abipy.num_warnings report);
             MongoTask.num_errors := Some (Abipy.num_errors report);
             MongoTask.num_comments := Some (Abipy.num_comments report);
             MongoTask.results := Some (MongoTaskResults.from_task task);
             MongoTask.outfiles := Some files |}.
Proof.
  destruct (Abipy.get_event_report task) as [report |] eqn:Hreport.
  - rewrite (from_task_with_report task report Hreport).
    destruct (MongoFiles.from_node _) as [files |]; cbn [Py.bind]; [| discriminate].
    intros [= <-]. now exists report, files.
  - rewrite (from_task_without_report task Hreport). discriminate.
Qed.




(** ** Decoding a stored dictionary *)

Lemma process_decoded_untagged (importer : Monty.Importer) (d : Json.dict) :
  Monty.tagged d = false ->
  Monty.process_decoded importer (Json.Dict d) =
    let? items := Monty.decode_entries importer d in Py.Ok (Monty.ODict items).
Proof.
  intros Htag. cbn [Monty.process_decoded]. unfold Monty.decode_tagged. rewrite Htag.
  reflexivity.
Qed.

Lemma decode_entries_raise (importer : Monty.Importer) (d : Json.dict) (e : Py.exn) :
  Monty.decode_entries importer d = Py.Raise e ->
  exists k v, In (k, v) d /\ Monty.process_decoded importer v = Py.Raise e.
Proof.
  induction d as [| [k v] r IH]; [discriminate |].
  cbn [Monty.decode_entries]. destruct (Monty.process_decoded importer v) eqn:Hv; cbn [Py.bind].
  - destruct (Monty.decode_entries importer r) eqn:Hr; cbn [Py.bind]; [discriminate |].
    intros [= <-]. destruct (IH eq_refl) as (k' & v' & Hin & Hraise).
    exists k', v'. split; [now right | exact Hraise].
  - intros [= <-]. exists k, v. split; [now left | exact Hv].
Qed.

Lemma decode_entries_ok (importer : Monty.Importer) (d : Json.dict) :
  (forall k v, In (k, v) d -> Py.is_ok (Monty.process_decoded importer v) = true) ->
  exists items, Monty.decode_entries importer d = Py.Ok items /\ map fst items = map fst d.
Proof.
  induction d as [| [k v] r IH]; intros Hall.
  - exists []. split; reflexivity.
  - cbn [Monty.decode_entries].
    pose proof (Hall k v (or_introl eq_refl)) as Hv.
    destruct (Monty.process_decoded importer v) as [v' |]; [| discriminate].
    destruct IH as (items & Hitems & Hkeys).
    { intros k' v'' Hin. apply (Hall k' v''). now right. }
    rewrite Hitems. cbn [Py.bind]. exists ((k, v') :: items). split; [reflexivity |].
    cbn [map fst]. now rewrite Hkeys.
Qed.

(** C7, as the code has it: [to_mgobj] hands the dictionary to the decoder
    and checks nothing itself.  For a dictionary without the type tag the
    decoder raises no error of its own: it returns a plain mapping with
    the keys of the dictionary and the decoded values, and it raises only
    what the decoding of one of the values raises. *)
Theorem to_mgobj_untagged (importer : Monty.Importer) (d : Json.dict) :
  Monty.tagged d = false ->
  MSONDict.to_mgobj importer d =
    (let? items := Monty.decode_entries importer d in Py.Ok (Monty.ODict items)) /\
  (forall e, MSONDict.to_mgobj importer d = Py.Raise e ->
     exists k v, In (k, v) d /\ Monty.process_decoded importer v = Py.Raise e) /\
  ((forall k v, In (k, v) d -> Py.is_ok (Monty.process_decoded importer v) = true) ->
   exists items, MSONDict.to_mgobj importer d = Py.Ok (Monty.ODict items) /\
     map fst items = map fst d).
Proof.
  intros Htag. unfold MSONDict.to_mgobj. rewrite (process_decoded_untagged importer d Htag).
  split; [reflexivity |]. split.
  - intros e. destruct (Monty.decode_entries importer d) eqn:Hd; cbn [Py.bind]; [discriminate |].
    intros [= <-]. now apply decode_entries_raise.
  - intros Hall. destruct (decode_entries_ok importer d Hall) as (items & Hitems & Hkeys).
    exists items. rewrite Hitems. split; [reflexivity | exact Hkeys].
Qed.

Lemma to_mgobj_untagged_witness :
  MSONDict.to_mgobj Samples.no_modules Samples.untagged_structure =
    (let? items := Monty.decode_entries Samples.no_modules Samples.untagged_structure in
     Py.Ok (Monty.ODict items)).
Proof.
  exact (proj1 (to_mgobj_untagged Samples.no_modules Samples.untagged_structure eq_refl)).
Defined.

(** C7 as stated fails: this dictionary has no type tag, and [to_mgobj]
    returns a plain mapping. *)
Lemma to_mgobj_returns_plain_mapping :
  Monty.tagged Samples.untagged_structure = false /\
  MSONDict.to_mgobj Samples.no_modules Samples.untagged_structure =
    Py.Ok (Monty.ODict [ ("formula", Monty.OStr "Si2"); ("sites", Monty.OList []) ]).
Proof. split; reflexivity. Qed.

(** A tagged dictionary whose class can be imported is rebuilt by the
    [from_dict] of the class, from the entries that are not the tag. *)
Lemma to_mgobj_tagged :
  let structure_class :=
    {| Monty.from_dict :=
         Some (fun data => Py.Ok (Monty.OInstance "pymatgen.core.structure" "Structure" data)) |} in
  let importer : Monty.Importer := fun m =>
    if String.eqb m "pymatgen.core.structure"
    then Some (fun c => if String.eqb c "Structure" then Some structure_class else None)
    else None in
  MSONDict.to_mgobj importer (Abipy.structure_as_dict Samples.si2) =
    Py.Ok (Monty.OInstance "pymatgen.core.structure" "Structure" [ ("formula", Json.Str "Si2") ]).
Proof. reflexivity. Qed.

(** A tagged dictionary whose module cannot be imported is decoded entry
    by entry, like an untagged one. *)
Example to_mgobj_import_fails :
  MSONDict.to_mgobj Samples.no_modules (Abipy.structure_as_dict Samples.si2) =
    Py.Ok (Monty.ODict [ ("@module", Monty.OStr "pymatgen.core.structure");
                         ("@class", Monty.OStr "Structure");
                         ("formula", Monty.OStr "Si2") ]).
Proof. reflexivity. Qed.

(** ** Indexed lookup *)

Lemma work_super_getitem_name (w : MongoWork.t) (s : string) :
  In s MongoWork._fields_ordered ->
  MongoWork.super_getitem w (Py.KName s) = MongoWork.getattr w s /\
  Py.is_ok (MongoWork.getattr w s) = true.
Proof.
  intros Hin. cbn in Hin.
  repeat (destruct Hin as [<- | Hin]; [split; reflexivity |]). destruct Hin.
Qed.

Lemma flow_super_getitem_name (f : MongoFlow.t) (s : string) :
  In s MongoFlow._fields_ordered ->
  MongoFlow.super_getitem f (Py.KName s) = MongoFlow.getattr f s /\
  Py.is_ok (MongoFlow.getattr f s) = true.
Proof.
  intros Hin. cbn in Hin.
  repeat (destruct Hin as [<- | Hin]; [split; reflexivity |]). destruct Hin.
Qed.

Lemma getitem_int_nat {A} (l : list A) (i : nat) :
  Py.getitem_int l (Z.of_nat i) =
    match l !! i with Some a => Py.Ok a | None => Py.Raise Py.IndexError end.
Proof.
  unfold Py.getitem_int.
  destruct (Z.ltb_spec (Z.of_nat i) 0) as [Hneg | _]; [lia |].
  destruct (Z.ltb_spec (Z.of_nat i) 0) as [Hneg | _]; [lia |]. cbn [orb].
  destruct (Z.leb_spec (Z.of_nat (length l)) (Z.of_nat i)) as [Hout | Hin].
  - rewrite (lookup_ge_None_2 l i) by lia. reflexivity.
  - now rewrite Nat2Z.id.
Qed.

Lemma getitem_int_in_range {A} (l : list A) (n : nat) (a : A) :
  l !! n = Some a ->
  Py.getitem_int l (Z.of_nat n) = Py.Ok a /\
  Py.getitem_int l (Z.of_nat n - Z.of_nat (length l)) = Py.Ok a.
Proof.
  intros Hn. pose proof (lookup_lt_Some l n a Hn) as Hlt. split.
  - now rewrite getitem_int_nat, Hn.
  - unfold Py.getitem_int.
    destruct (Z.ltb_spec (Z.of_nat n - Z.of_nat (length l)) 0) as [_ | Hge]; [| lia].
    replace (Z.of_nat n - Z.of_nat (length l) + Z.of_nat (length l)) with (Z.of_nat n) by lia.
    destruct (Z.ltb_spec (Z.of_nat n) 0) as [Hneg | _]; [lia |].
    destruct (Z.leb_spec (Z.of_nat (length l)) (Z.of_nat n)) as [Hout | _]; [lia |].
    cbn [orb]. now rewrite Nat2Z.id, Hn.
Qed.

Lemma getitem_int_out_of_range {A} (l : list A) (i : Z) :
  i < - Z.of_nat (length l) \/ Z.of_nat (length l) <= i ->
  Py.getitem_int l i = Py.Raise Py.IndexError.
Proof.
  intros Hout. unfold Py.getitem_int.
  destruct (Z.ltb_spec i 0) as [Hneg | Hpos].
  - destruct (Z.ltb_spec (i + Z.of_nat (length l)) 0) as [_ | Hge]; [reflexivity | lia].
  - destruct (Z.ltb_spec i 0) as [Hneg | _]; [lia |].
    destruct (Z.leb_spec (Z.of_nat (length l)) i) as [_ | Hin]; [reflexivity | lia].
Qed.

(** An integer subscript on the list of a list field.  The element at
    position [n] answers to [n], to [n - len] and, because a negative
    subscript is shifted by [len] before the list shifts it again, to
    [n - 2 * len]. *)
Lemma baselist_getitem_in_range {A} (l : list A) (n : nat) (a : A) :
  l !! n = Some a ->
  baselist_getitem l (Py.KIndex (Z.of_nat n)) = Py.Ok (Py.One a) /\
  baselist_getitem l (Py.KIndex (Z.of_nat n - Z.of_nat (length l))) = Py.Ok (Py.One a) /\
  baselist_getitem l (Py.KIndex (Z.of_nat n - 2 * Z.of_nat (length l))) = Py.Ok (Py.One a).
Proof.
  intros Hn. pose proof (lookup_lt_Some l n a Hn) as Hlt.
  destruct (getitem_int_in_range l n a Hn) as [Hpos Hneg].
  unfold baselist_getitem. cbn [Py.list_getitem]. repeat split.
  - destruct (Z.ltb_spec (Z.of_nat n) 0) as [H | _]; [lia |]. now rewrite Hpos.
  - destruct (Z.ltb_spec (Z.of_nat n - Z.of_nat (length l)) 0) as [_ | H]; [| lia].
    replace (Z.of_nat (length l) + (Z.of_nat n - Z.of_nat (length l))) with (Z.of_nat n) by lia.
    now rewrite Hpos.
  - destruct (Z.ltb_spec (Z.of_nat n - 2 * Z.of_nat (length l)) 0) as [_ | H]; [| lia].
    replace (Z.of_nat (length l) + (Z.of_nat n - 2 * Z.of_nat (length l)))
      with (Z.of_nat n - Z.of_nat (length l)) by lia.
    now rewrite Hneg.
Qed.

Lemma baselist_getitem_out_of_range {A} (l : list A) (i : Z) :
  i < - (2 * Z.of_nat (length l)) \/ Z.of_nat (length l) <= i ->
  baselist_getitem l (Py.KIndex i) = Py.Raise Py.IndexError.
Proof.
  intros Hout. unfold baselist_getitem. cbn [Py.list_getitem].
  rewrite getitem_int_out_of_range; [reflexivity |].
  destruct (Z.ltb_spec i 0); lia.
Qed.

(** A subscript that is not a name goes to the embedded list. *)
Lemma work_getitem_fallback (w : MongoWork.t) (name : Py.key) :
  (forall s, name <> Py.KName s) ->
  MongoWork.getitem w name =
    match baselist_getitem (MongoWork.tasks_list w) name with
    | Py.Ok (Py.One task) => Py.Ok (MongoWork.VTask task)
    | Py.Ok (Py.Many l) => Py.Ok (MongoWork.VTasks l)
    | Py.Raise e => Py.Raise e
    end.
Proof.
  intros Hname. destruct name as [s | i | a b c]; [now elim (Hname s) | |];
    unfold MongoWork.getitem, MongoWork.tasks_getitem;
    cbn [MongoWork.super_getitem document_getitem];
    destruct (baselist_getitem _ _) as [[] | []]; reflexivity.
Qed.

Lemma flow_getitem_fallback (f : MongoFlow.t) (name : Py.key) :
  (forall s, name <> Py.KName s) ->
  MongoFlow.getitem f name =
    match baselist_getitem (MongoFlow.works_list f) name with
    | Py.Ok (Py.One work) => Py.Ok (MongoFlow.VWork work)
    | Py.Ok (Py.Many l) => Py.Ok (MongoFlow.VWorks l)
    | Py.Raise e => Py.Raise e
    end.
Proof.
  intros Hname. destruct name as [s | i | a b c]; [now elim (Hname s) | |];
    unfold MongoFlow.getitem, MongoFlow.works_getitem;
    cbn [MongoFlow.super_getitem document_getitem];
    destruct (baselist_getitem _ _) as [[] | []]; reflexivity.
Qed.

Lemma work_getitem_index (work : MongoWork.t) (i : nat) :
  MongoWork.getitem work (Py.KIndex (Z.of_nat i)) =
    match MongoWork.tasks_list work !! i with
    | Some task => Py.Ok (MongoWork.VTask task)
    | None => Py.Raise Py.IndexError
    end.
Proof.
  rewrite work_getitem_fallback by discriminate.
  unfold baselist_getitem. cbn [Py.list_getitem].
  destruct (Z.ltb_spec (Z.of_nat i) 0) as [H | _]; [lia |].
  rewrite getitem_int_nat. destruct (MongoWork.tasks_list work !! i); reflexivity.
Qed.

Lemma flow_getitem_index (flow : MongoFlow.t) (i : nat) :
  MongoFlow.getitem flow (Py.KIndex (Z.of_nat i)) =
    match MongoFlow.works_list flow !! i with
    | Some work => Py.Ok (MongoFlow.VWork work)
    | None => Py.Raise Py.IndexError
    end.
Proof.
  rewrite flow_getitem_fallback by discriminate.
  unfold baselist_getitem. cbn [Py.list_getitem].
  destruct (Z.ltb_spec (Z.of_nat i) 0) as [H | _]; [lia |].
  rewrite getitem_int_nat. destruct (MongoFlow.works_list flow !! i); reflexivity.
Qed.

Lemma range_from_all {A} (l : list A) :
  forall pre : list A,
    omap (fun j => (pre ++ l) !! Z.to_nat j)
      (Py.range_from (length l) (Z.of_nat (length pre))
         (Z.of_nat (length pre + length l)) 1) = l.
Proof.
  induction l as [| x l IH]; intros pre; [reflexivity |].
  cbn [length Py.range_from].
  destruct (Z.ltb_spec 0 1) as [_ | H]; [| lia].
  destruct (Z.ltb_spec (Z.of_nat (length pre)) (Z.of_nat (length pre + S (length l))))
    as [_ | H]; [| lia].
  cbn [andb orb omap list_omap]. rewrite Nat2Z.id.
  rewrite (list_lookup_middle pre l x (length pre) eq_refl). f_equal.
  specialize (IH (pre ++ [x])). rewrite <- app_assoc in IH. cbn [app] in IH.
  rewrite length_app in IH. cbn [length] in IH.
  replace (Z.of_nat (length pre) + 1) with (Z.of_nat (length pre + 1)) by lia.
  replace (length pre + S (length l))%nat with (length pre + 1 + length l)%nat by lia.
  exact IH.
Qed.

Lemma getitem_slice_full {A} (l : list A) :
  Py.getitem_slice l None None None = Py.Ok l.
Proof.
  unfold Py.getitem_slice, Py.slice_indices. cbn [Z.eqb Z.ltb Z.compare].
  f_equal. exact (range_from_all l []).
Qed.

Lemma getitem_slice_elements {A} (l r : list A) (a b s : option Z) :
  Py.getitem_slice l a b s = Py.Ok r -> forall x, In x r -> In x l.
Proof.
  unfold Py.getitem_slice.
  destruct (Py.slice_indices a b s _) as [[[i j] st] |]; [| discriminate].
  intros [= <-] x Hx. apply list_elem_of_In in Hx.
  apply list_elem_of_omap in Hx as (k & _ & Hk).
  apply list_elem_of_In. exact (list_elem_of_lookup_2 _ _ _ Hk).
Qed.

Lemma getitem_slice_total {A} (l : list A) (a b s : option Z) :
  s <> Some 0 -> exists r, Py.getitem_slice l a b s = Py.Ok r.
Proof.
  intros Hs. unfold Py.getitem_slice, Py.slice_indices.
  destruct s as [st |].
  - destruct (Z.eqb_spec st 0) as [-> | _]; [now elim Hs |]. eexists. reflexivity.
  - cbn [Z.eqb]. eexists. reflexivity.
Qed.

(** C8: [__getitem__] of a work record and of a flow record returns what
    the dictionary-style lookup of the parent class returns whenever that
    lookup returns; when that lookup raises [KeyError] the result is that
    of indexing the embedded list ([tasks], [works]) with the same
    subscript; any other exception of the lookup passes through.  A field
    name is therefore answered by the field, an integer or a slice by the
    list: the integer [n] returns the element at position [n] of the list,
    an integer from the length on raises [IndexError], the slice without
    bounds returns the whole list, and any slice returns what the list
    returns for it. *)
Theorem getitem_dictionary_first (w : MongoWork.t) (f : MongoFlow.t) (name : Py.key) :
  ((forall v, MongoWork.super_getitem w name = Py.Ok v -> MongoWork.getitem w name = Py.Ok v) /\
   (forall k, MongoWork.super_getitem w name = Py.Raise (Py.KeyError k) ->
      MongoWork.getitem w name = MongoWork.tasks_getitem w name) /\
   (forall e, MongoWork.super_getitem w name = Py.Raise e ->
      (forall k, e <> Py.KeyError k) -> MongoWork.getitem w name = Py.Raise e) /\
   (forall s, name = Py.KName s -> In s MongoWork._fields_ordered ->
      MongoWork.getitem w name = MongoWork.getattr w s) /\
   ((forall s, name <> Py.KName s) ->
      MongoWork.getitem w name = MongoWork.tasks_getitem w name)) /\
  ((forall v, MongoFlow.super_getitem f name = Py.Ok v -> MongoFlow.getitem f name = Py.Ok v) /\
   (forall k, MongoFlow.super_getitem f name = Py.Raise (Py.KeyError k) ->
      MongoFlow.getitem f name = MongoFlow.works_getitem f name) /\
   (forall e, MongoFlow.super_getitem f name = Py.Raise e ->
      (forall k, e <> Py.KeyError k) -> MongoFlow.getitem f name = Py.Raise e) /\
   (forall s, name = Py.KName s -> In s MongoFlow._fields_ordered ->
      MongoFlow.getitem f name = MongoFlow.getattr f s) /\
   ((forall s, name <> Py.KName s) ->
      MongoFlow.getitem f name = MongoFlow.works_getitem f name)) /\
  (MongoWork.getitem w (Py.KName "tasks") = Py.Ok (MongoWork.VTasks (MongoWork.tasks_list w)) /\
   MongoFlow.getitem f (Py.KName "works") = Py.Ok (MongoFlow.VWorks (MongoFlow.works_list f))) /\
  ((forall n task, MongoWork.tasks_list w !! n = Some task ->
      MongoWork.getitem w (Py.KIndex (Z.of_nat n)) = Py.Ok (MongoWork.VTask task)) /\
   (forall i, Z.of_nat (length (MongoWork.tasks_list w)) <= i ->
      MongoWork.getitem w (Py.KIndex i) = Py.Raise Py.IndexError) /\
   MongoWork.getitem w (Py.KSlice None None None)
     = Py.Ok (MongoWork.VTasks (MongoWork.tasks_list w)) /\
   (forall a b s,
      MongoWork.getitem w (Py.KSlice a b s) =
        let? l := Py.getitem_slice (MongoWork.tasks_list w) a b s in
        Py.Ok (MongoWork.VTasks l))) /\
  ((forall n work, MongoFlow.works_list f !! n = Some work ->
      MongoFlow.getitem f (Py.KIndex (Z.of_nat n)) = Py.Ok (MongoFlow.VWork work)) /\
   (forall i, Z.of_nat (length (MongoFlow.works_list f)) <= i ->
      MongoFlow.getitem f (Py.KIndex i) = Py.Raise Py.IndexError) /\
   MongoFlow.getitem f (Py.KSlice None None None)
     = Py.Ok (MongoFlow.VWorks (MongoFlow.works_list f)) /\
   (forall a b s,
      MongoFlow.getitem f (Py.KSlice a b s) =
        let? l := Py.getitem_slice (MongoFlow.works_list f) a b s in
        Py.Ok (MongoFlow.VWorks l))).
Proof.
  split; [| split; [| split; [| split]]].
  - repeat split.
    + intros v Hv. unfold MongoWork.getitem. now rewrite Hv.
    + intros k Hk. unfold MongoWork.getitem. rewrite Hk.
      destruct (MongoWork.tasks_getitem w name) as [v | []]; reflexivity.
    + intros e He Hne. unfold MongoWork.getitem. rewrite He.
      destruct e; try reflexivity. now elim (Hne k).
    + intros s -> Hin. destruct (work_super_getitem_name w s Hin) as [Hsuper Hok].
      unfold MongoWork.getitem. rewrite Hsuper.
      destruct (MongoWork.getattr w s); [reflexivity | discriminate].
    + intros Hname. destruct name as [s | i | a b c]; [now elim (Hname s) | |];
        unfold MongoWork.getitem; cbn [MongoWork.super_getitem document_getitem];
        destruct (MongoWork.tasks_getitem w _) as [v | []]; reflexivity.
  - repeat split.
    + intros v Hv. unfold MongoFlow.getitem. now rewrite Hv.
    + intros k Hk. unfold MongoFlow.getitem. rewrite Hk.
      destruct (MongoFlow.works_getitem f name) as [v | []]; reflexivity.
    + intros e He Hne. unfold MongoFlow.getitem. rewrite He.
      destruct e; try reflexivity. now elim (Hne k).
    + intros s -> Hin. destruct (flow_super_getitem_name f s Hin) as [Hsuper Hok].
      unfold MongoFlow.getitem. rewrite Hsuper.
      destruct (MongoFlow.getattr f s); [reflexivity | discriminate].
    + intros Hname. destruct name as [s | i | a b c]; [now elim (Hname s) | |];
        unfold MongoFlow.getitem; cbn [MongoFlow.super_getitem document_getitem];
        destruct (MongoFlow.works_getitem f _) as [v | []]; reflexivity.
  - split; reflexivity.
  - repeat split.
    + intros n task Hn. now rewrite work_getitem_index, Hn.
    + intros i Hi. rewrite work_getitem_fallback by discriminate.
      rewrite baselist_getitem_out_of_range; [reflexivity | now right].
    + rewrite work_getitem_fallback by discriminate. cbn [baselist_getitem Py.list_getitem].
      now rewrite getitem_slice_full.
    + intros a b s. rewrite work_getitem_fallback by discriminate.
      cbn [baselist_getitem Py.list_getitem].
      destruct (Py.getitem_slice _ a b s); reflexivity.
  - repeat split.
    + intros n work Hn. now rewrite flow_getitem_index, Hn.
    + intros i Hi. rewrite flow_getitem_fallback by discriminate.
      rewrite baselist_getitem_out_of_range; [reflexivity | now right].
    + rewrite flow_getitem_fallback by discriminate. cbn [baselist_getitem Py.list_getitem].
      now rewrite getitem_slice_full.
    + intros a b s. rewrite flow_getitem_fallback by discriminate.
      cbn [baselist_getitem Py.list_getitem].
      destruct (Py.getitem_slice _ a b s); reflexivity.
Qed.

Lemma getitem_dictionary_first_witness :
  MongoWork.getitem Samples.work_record (Py.KName "tasks")
    = MongoWork.getattr Samples.work_record "tasks" /\
  MongoFlow.getitem Samples.two_work_flow_record (Py.KIndex 1)
    = Py.Ok (MongoFlow.VWork Samples.second_work_record) /\
  MongoFlow.getitem Samples.two_work_flow_record (Py.KIndex 2) = Py.Raise Py.IndexError.
Proof.
  split; [| split].
  - destruct (getitem_dictionary_first Samples.work_record Samples.flow_record (Py.KName "tasks"))
      as [(_ & _ & _ & Hname & _) _].
    apply (Hname "tasks" eq_refl). cbn. tauto.
  - destruct (getitem_dictionary_first Samples.work_record Samples.two_work_flow_record
                (Py.KIndex 1)) as (_ & _ & _ & _ & Hindex & _).
    exact (Hindex 1%nat Samples.second_work_record eq_refl).
  - destruct (getitem_dictionary_first Samples.work_record Samples.two_work_flow_record
                (Py.KIndex 2)) as (_ & _ & _ & _ & _ & Hout & _).
    apply Hout. vm_compute. discriminate.
Defined.

Example work_record_tasks :
  MongoWork.getitem Samples.work_record (Py.KName "tasks")
    = Py.Ok (MongoWork.VTasks (MongoWork.tasks_list Samples.work_record)) /\
  length (MongoWork.tasks_list Samples.work_record) = 1%nat.
Proof. split; reflexivity. Qed.

Example work_record_index :
  (exists task, MongoWork.getitem Samples.work_record (Py.KIndex 0) = Py.Ok (MongoWork.VTask task)) /\
  (exists task, MongoWork.getitem Samples.work_record (Py.KIndex (-1)) = Py.Ok (MongoWork.VTask task)) /\
  MongoWork.getitem Samples.work_record (Py.KIndex 1) = Py.Raise Py.IndexError /\
  MongoWork.getitem Samples.work_record (Py.KSlice (Some 1) None None)
    = Py.Ok (MongoWork.VTasks []) /\
  MongoWork.getitem Samples.work_record (Py.KName "_cls") = Py.Ok (MongoWork.VStr "MongoWork") /\
  MongoWork.getitem Samples.work_record (Py.KName "pseudos")
    = Py.Raise (Py.TypeError "list indices must be integers or slices, not str").
Proof. repeat split; eexists; reflexivity. Qed.

(** ** Required fields *)

(** What [from_work] and [from_flow] return, in parts. *)
Lemma from_work_parts (work : Abipy.Work) (new : MongoWork.t) :
  MongoWork.from_work work = Py.Ok new ->
  exists ts files,
    MongoWork.tasks_from (Abipy.work_tasks work) = Py.Ok ts /\
    MongoFiles.from_node (Abipy.work_node work) = Py.Ok files /\
    new = {| MongoWork.base := MongoEmbeddedNode.from_node (Abipy.work_node work);
             MongoWork.tasks := Some ts;
             MongoWork.outfiles := Some files |}.
Proof.
  unfold MongoWork.from_work.
  destruct (MongoWork.tasks_from _) as [ts |]; cbn [Py.bind]; [| discriminate].
  destruct (MongoFiles.from_node _) as [files |]; cbn [Py.bind]; [| discriminate].
  intros [= <-]. now exists ts, files.
Qed.

Lemma from_flow_parts (flow : Abipy.Flow) (new : MongoFlow.t) :
  MongoFlow.from_flow flow = Py.Ok new ->
  exists ws files,
    MongoFlow.works_from (Abipy.flow_works flow) = Py.Ok ws /\
    MongoFiles.from_node (Abipy.flow_node flow) = Py.Ok files /\
    new = {| MongoFlow.base := MongoNode.from_node (Abipy.flow_node flow);
             MongoFlow.works := Some ws;
             MongoFlow.outfiles := Some files |}.
Proof.
  unfold MongoFlow.from_flow.
  destruct (MongoFlow.works_from _) as [ws |]; cbn [Py.bind]; [| discriminate].
  destruct (MongoFiles.from_node _) as [files |]; cbn [Py.bind]; [| discriminate].
  intros [= <-]. now exists ws, files.
Qed.

(** C9 as stated fails: the record [from_task] starts from is constructed
    with the four node fields only.  Six required fields are missing; the
    construction returns the record all the same, with the empty
    dictionary in [input] and [report] and [None] in [input_str] and the
    three counters. *)
Lemma construction_with_missing_required_fields :
  MongoTask.from_node Samples.task_node =
    {| MongoTask.base :=
         {| MongoEmbeddedNode.node_id := Some 42;
            MongoEmbeddedNode.node_class := Some "ScfTask";
            MongoEmbeddedNode.status := Some "Completed";
            MongoEmbeddedNode.workdir := Some "/scratch/flow/w0/t0" |};
       MongoTask.input := Some [];
       MongoTask.input_str := None;
       MongoTask.report := Some [];
       MongoTask.num_warnings := None;
       MongoTask.num_errors := None;
       MongoTask.num_comments := None;
       MongoTask.results := None;
       MongoTask.outfiles := None |}.
Proof. reflexivity. Qed.

(** C9, as the code has it: constructing a record does not look at the
    [required] flags.  The inherited [from_node] returns a task, work or
    flow record whose own required fields read as their defaults (the empty
    dictionary, the empty list, [None]); the conversions assign them
    afterwards, and in every record a conversion returns each required
    field holds the value taken from the source object. *)
Theorem required_fields_assigned_by_conversions :
  (forall node,
     MongoTask.input (MongoTask.from_node node) = Some [] /\
     MongoTask.input_str (MongoTask.from_node node) = None /\
     MongoTask.report (MongoTask.from_node node) = Some [] /\
     MongoTask.num_warnings (MongoTask.from_node node) = None /\
     MongoTask.num_errors (MongoTask.from_node node) = None /\
     MongoTask.num_comments (MongoTask.from_node node) = None) /\
  (forall node,
     MongoWork.getitem (MongoWork.from_node node) (Py.KName "tasks")
       = Py.Ok (MongoWork.VTasks []) /\
     MongoFlow.getitem (MongoFlow.from_node node) (Py.KName "works")
       = Py.Ok (MongoFlow.VWorks [])) /\
  (forall task new, MongoTask.from_task task = Py.Ok new ->
     MongoTask.base new = MongoTask.base (MongoTask.from_node (Abipy.task_node task)) /\
     MongoTask.input new = Some (Abipy.input_as_dict (Abipy.input task)) /\
     MongoTask.input_str new = Some (Abipy.input_to_str (Abipy.input task)) /\
     exists report,
       Abipy.get_event_report task = Some report /\
       MongoTask.report new = Some (Abipy.report_as_dict report) /\
       MongoTask.num_warnings new = Some (Abipy.num_warnings report) /\
       MongoTask.num_errors new = Some (Abipy.num_errors report) /\
       MongoTask.num_comments new = Some (Abipy.num_comments report)) /\
  (forall work new, MongoWork.from_work work = Py.Ok new ->
     MongoWork.base new = MongoWork.base (MongoWork.from_node (Abipy.work_node work)) /\
     exists ts, MongoWork.tasks_from (Abipy.work_tasks work) = Py.Ok ts /\
       MongoWork.tasks new = Some ts) /\
  (forall flow new, MongoFlow.from_flow flow = Py.Ok new ->
     MongoFlow.base new = MongoFlow.base (MongoFlow.from_node (Abipy.flow_node flow)) /\
     exists ws, MongoFlow.works_from (Abipy.flow_works flow) = Py.Ok ws /\
       MongoFlow.works new = Some ws).
Proof.
  split; [| split; [| split; [| split]]].
  - intros node. repeat split.
  - intros node. split; reflexivity.
  - intros task new Hnew.
    destruct (from_task_parts task new Hnew) as (report & files & Hr & _ & ->).
    repeat split. exists report. repeat split. exact Hr.
  - intros work new Hnew.
    destruct (from_work_parts work new Hnew) as (ts & files & Hts & _ & ->).
    split; [reflexivity |]. now exists ts.
  - intros flow new Hnew.
    destruct (from_flow_parts flow new Hnew) as (ws & files & Hws & _ & ->).
    split; [reflexivity |]. now exists ws.
Qed.

Lemma required_fields_assigned_by_conversions_witness :
  MongoFlow.base Samples.flow_record = MongoFlow.base (MongoFlow.from_node Samples.flow_node) /\
  exists ws, MongoFlow.works_from [ Samples.work ] = Py.Ok ws /\
    MongoFlow.works Samples.flow_record = Some ws.
Proof.
  destruct required_fields_assigned_by_conversions as (_ & _ & _ & _ & Hflow).
  apply (Hflow Samples.flow). vm_compute. reflexivity.
Defined.

(** ** Deleting the files of a flow *)














(** [MongoFlow.delete] has no way to return: its last statement calls it
    again. *)
Lemma delete_never_returns (it : iteration) (depth : nat) (self : MongoFlow.t) (st : Backend) :
  Py.is_ok (snd (MongoFlow.delete it depth self st)) = false.
Proof.
  revert self st. induction depth as [| depth IH]; intros self st; [reflexivity |].
  cbn [MongoFlow.delete].
  destruct (MongoFlow.delete_works it (MongoFlow.works_list self) st) as [st1 [ws' | e]];
    [apply IH | reflexivity].
Qed.

(** One round of the loop of [MongoFiles.delete] when the call succeeds. *)
Lemma delete_fields_step (field : MongoFiles.AbiFileField) (rest : list MongoFiles.AbiFileField)
    (self : MongoFiles.t) (st : Backend) (s : MongoFiles.slot) :
  MongoFiles.slot_of_name (MongoFiles.name field) = Some s ->
  fails st (length (calls st)) = false ->
  MongoFiles.delete_fields (field :: rest) self st =
  MongoFiles.delete_fields rest (MongoFiles.set self s None)
    (record_call {| key := MongoFiles.name field; grid_id := MongoFiles.get self s |} st).
Proof.
  intros Hs Hf. cbn [MongoFiles.delete_fields]. unfold MongoFiles.getattr. rewrite Hs.
  unfold proxy_delete. rewrite Hf. unfold MongoFiles.store. cbn [key grid_id]. now rewrite Hs.
Qed.

Lemma delete_fields_fail_step (field : MongoFiles.AbiFileField)
    (rest : list MongoFiles.AbiFileField) (self : MongoFiles.t) (st : Backend)
    (s : MongoFiles.slot) :
  MongoFiles.slot_of_name (MongoFiles.name field) = Some s ->
  fails st (length (calls st)) = true ->
  MongoFiles.delete_fields (field :: rest) self st =
    (record_call {| key := MongoFiles.name field; grid_id := MongoFiles.get self s |} st,
     Py.Raise Py.OperationFailure).
Proof.
  intros Hs Hf. cbn [MongoFiles.delete_fields]. unfold MongoFiles.getattr. rewrite Hs.
  unfold proxy_delete. now rewrite Hf.
Qed.

(** Among the [b] calls from number [a] on, either none fails or one is
    the first to fail. *)
Lemma first_failure (f : nat -> bool) (a b : nat) :
  (forall n, (a <= n < a + b)%nat -> f n = false) \/
  (exists k, (k < b)%nat /\ (forall n, (a <= n < a + k)%nat -> f n = false) /\
             f (a + k)%nat = true).
Proof.
  induction b as [| b [Hnone | (k & Hk & Hpre & Hfail)]].
  - left. intros n Hn. lia.
  - destruct (f (a + b)%nat) eqn:Hb.
    + right. exists b. split; [lia |]. split; [exact Hnone | exact Hb].
    + left. intros n Hn. destruct (Nat.eq_dec n (a + b)%nat) as [-> | Hne]; [exact Hb |].
      apply Hnone. lia.
  - right. exists k. split; [lia |]. split; [exact Hpre | exact Hfail].
Qed.

Ltac store_index :=
  unfold record_call; cbn [fails calls]; rewrite ?length_app; cbn [length].

(** When none of its eight calls fails, [MongoFiles.delete] calls
    [delete()] on the proxy of every file field, in the order of the
    fields, and leaves every field empty. *)
Lemma files_delete_ok_bounded (self : MongoFiles.t) (st : Backend) :
  (forall n, (length (calls st) <= n < length (calls st) + 8)%nat -> fails st n = false) ->
  MongoFiles.delete self st =
    ({| fails := fails st; calls := calls st ++ MongoFiles.proxies self |},
     Py.Ok MongoFiles.new).
Proof.
  intros Hpre. unfold MongoFiles.delete, MongoFiles._fields.
  do 8 (erewrite delete_fields_step
          by first [reflexivity | solve [store_index; apply Hpre; lia]]).
  cbn [MongoFiles.delete_fields]. unfold record_call. cbn [fails calls].
  rewrite <- !app_assoc. reflexivity.
Qed.

(** When the call number [k] is the first to fail, the calls made are
    those on the first [k + 1] fields. *)
Lemma files_delete_fails_at (self : MongoFiles.t) (st : Backend) (k : nat) :
  (k < 8)%nat ->
  (forall n, (length (calls st) <= n < length (calls st) + k)%nat -> fails st n = false) ->
  fails st (length (calls st) + k)%nat = true ->
  MongoFiles.delete self st =
    ({| fails := fails st; calls := calls st ++ firstn (S k) (MongoFiles.proxies self) |},
     Py.Raise Py.OperationFailure).
Proof.
  intros Hk Hpre Hfail. unfold MongoFiles.delete, MongoFiles._fields.
  destruct k as [| [| [| [| [| [| [| [| k]]]]]]]]; [.. | lia];
    repeat (erewrite delete_fields_step
              by first [reflexivity | solve [store_index; apply Hpre; lia]]);
    (erewrite delete_fields_fail_step
       by first [reflexivity
                | solve [store_index; rewrite <- Hfail; f_equal; lia]]);
    unfold record_call; cbn [fails calls]; rewrite <- ?app_assoc; reflexivity.
Qed.

(** When the iteration over a work yields the names of its fields, the
    inner loop raises at the first name: after the file set of the first
    work nothing is attempted. *)
Lemma delete_by_field_names (depth : nat) (self : MongoFlow.t) (st : Backend)
    (work : MongoWork.t) (rest : list MongoWork.t) (files : MongoFiles.t) :
  MongoFlow.works_list self = work :: rest ->
  MongoWork.outfiles work = Some files ->
  (forall n, (length (calls st) <= n < length (calls st) + 8)%nat -> fails st n = false) ->
  MongoFlow.delete ByFieldNames (S depth) self st =
    ({| fails := fails st; calls := calls st ++ MongoFiles.proxies files |},
     Py.Raise (Py.AttributeError "str" "outfiles")).
Proof.
  intros Hws Hfiles Hok. cbn [MongoFlow.delete]. rewrite Hws.
  cbn [MongoFlow.delete_works]. rewrite Hfiles. cbn [MongoFlow.outfiles_delete].
  now rewrite (files_delete_ok_bounded files st Hok).
Qed.




(** * Further properties of the conversions *)

(** ** [MongoFiles.from_node] *)

Lemma from_node_returns_iff (node : Abipy.Node) :
  Py.is_ok (MongoFiles.from_node node) = node_storable node.
Proof.
  rewrite from_node_outcome. unfold node_storable.
  destruct (Py.truthy (Abipy.has_abiext (Abipy.outdir node) "DDB")); [reflexivity |].
  destruct (Py.truthy (Abipy.has_abiext (Abipy.outdir node) "abo")); [reflexivity |].
  destruct (Abipy.output_file node) as [out |]; [| reflexivity].
  destruct (Abipy.read out); reflexivity.
Qed.

(** X1: what makes [MongoFiles.from_node] raise, in the order the code
    meets it.  A DDB file in the output directory is opened in text mode,
    and the store refuses it with [TypeError], before the [abo] extension
    is looked at; without a DDB file, a file with the [abo] extension
    raises [AttributeError] for the attribute [abo]; without either, an
    [output_file] that reads text is refused with [TypeError].  No record
    the conversion returns holds a DDB file or text. *)
Theorem files_from_node_refusals (node : Abipy.Node) :
  (Abipy.has_abiext (Abipy.outdir node) "DDB" <> "" ->
   exists msg, MongoFiles.from_node node = Py.Raise (Py.TypeError msg)) /\
  (Abipy.has_abiext (Abipy.outdir node) "DDB" = "" ->
   Abipy.has_abiext (Abipy.outdir node) "abo" <> "" ->
   MongoFiles.from_node node = Py.Raise (Py.AttributeError "MongoFiles" "abo")) /\
  (Abipy.has_abiext (Abipy.outdir node) "DDB" = "" ->
   Abipy.has_abiext (Abipy.outdir node) "abo" = "" ->
   forall out s, Abipy.output_file node = Some out -> Abipy.read out = Py.Str s ->
   exists msg, MongoFiles.from_node node = Py.Raise (Py.TypeError msg)) /\
  (forall new, MongoFiles.from_node node = Py.Ok new ->
     MongoFiles.ddb new = None /\
     forall s, MongoFiles.output_file new <> Some (FromData (Py.Str s))).
Proof.
  assert (Htruthy : forall s, s <> "" -> Py.truthy s = true).
  { intros [| c s] Hs; [now elim Hs | reflexivity]. }
  split; [| split; [| split]].
  - intros Hddb. rewrite from_node_outcome, (Htruthy _ Hddb). eexists. reflexivity.
  - intros Hddb Habo. now rewrite from_node_outcome, Hddb, (Htruthy _ Habo).
  - intros Hddb Habo out s Hout Hread. rewrite from_node_outcome, Hddb, Habo, Hout, Hread.
    eexists. reflexivity.
  - intros new Hnew. destruct (from_node_ok_inv node new Hnew) as (_ & _ & -> & Hbytes).
    destruct (Abipy.output_file node) as [out |]; [| split; [reflexivity | discriminate]].
    split; [reflexivity |]. intros s. destruct (Hbytes out eq_refl) as [b Hb].
    cbn. rewrite Hb. discriminate.
Qed.

Lemma files_from_node_refusals_witness :
  (exists msg, MongoFiles.from_node Samples.ddb_task_node = Py.Raise (Py.TypeError msg)) /\
  (exists msg, MongoFiles.from_node Samples.text_task_node = Py.Raise (Py.TypeError msg)).
Proof.
  split.
  - apply (files_from_node_refusals Samples.ddb_task_node). discriminate.
  - destruct (files_from_node_refusals Samples.text_task_node) as (_ & _ & Htext & _).
    exact (Htext eq_refl eq_refl _ _ eq_refl eq_refl).
Defined.

(** X2: [MongoFiles.from_node] never puts a file into a proxy that
    already has one: the [GridFSError] with which [put] refuses a second
    file is never raised. *)
Theorem files_from_node_no_second_put (node : Abipy.Node) (msg : string) :
  MongoFiles.from_node node <> Py.Raise (Py.GridFSError msg).
Proof.
  rewrite from_node_outcome.
  destruct (Py.truthy (Abipy.has_abiext (Abipy.outdir node) "DDB")); [discriminate |].
  destruct (Py.truthy (Abipy.has_abiext (Abipy.outdir node) "abo")); [discriminate |].
  destruct (Abipy.output_file node) as [out |]; [| discriminate].
  destruct (Abipy.read out); discriminate.
Qed.

(** ** [MongoTask.from_task] *)

(** X4: the record [from_task] returns is put together from the other
    conversions: its node fields are those of [from_node], its results
    record is that of [MongoTaskResults.from_task], its file-set record is
    the one [MongoFiles.from_node] returns for the task, and the input and
    the report are stored as their [as_dict()], the input also as its
    string. *)
Theorem from_task_composes (task : Abipy.Task) (new : MongoTask.t) :
  MongoTask.from_task task = Py.Ok new ->
  MongoTask.base new = MongoEmbeddedNode.from_node (Abipy.task_node task) /\
  MongoTask.input new = Some (Abipy.input_as_dict (Abipy.input task)) /\
  MongoTask.input_str new = Some (Abipy.input_to_str (Abipy.input task)) /\
  (exists report, Abipy.get_event_report task = Some report /\
     MongoTask.report new = Some (Abipy.report_as_dict report)) /\
  MongoTask.results new = Some (MongoTaskResults.from_task task) /\
  (exists files, MongoFiles.from_node (Abipy.task_node task) = Py.Ok files /\
     MongoTask.outfiles new = Some files).
Proof.
  intros Hnew. destruct (from_task_parts task new Hnew) as (report & files & Hr & Hf & ->).
  repeat split; [exists report | exists files]; split; (assumption || reflexivity).
Qed.

Lemma from_task_composes_witness :
  exists new, MongoTask.from_task Samples.task = Py.Ok new /\
    MongoTask.results new = Some (MongoTaskResults.from_task Samples.task).
Proof.
  destruct (MongoTask.from_task Samples.task) as [new |] eqn:Hnew; [| discriminate].
  exists new. split; [reflexivity |].
  apply (from_task_composes Samples.task new Hnew).
Defined.

(** ** [MongoWork.from_work] and [MongoFlow.from_flow] *)

Lemma tasks_from_Forall2 (ts : list Abipy.Task) (new : list MongoTask.t) :
  MongoWork.tasks_from ts = Py.Ok new <->
  Forall2 (fun task t => MongoTask.from_task task = Py.Ok t) ts new.
Proof.
  revert new. induction ts as [| task rest IH]; intros new; cbn [MongoWork.tasks_from].
  - split.
    + intros [= <-]. constructor.
    + intros H. inversion H. reflexivity.
  - split.
    + destruct (MongoTask.from_task task) as [t |] eqn:Ht; cbn [Py.bind]; [| discriminate].
      destruct (MongoWork.tasks_from rest) as [r |] eqn:Hr; cbn [Py.bind]; [| discriminate].
      intros [= <-]. constructor; [exact Ht | now apply IH].
    + intros H. inversion H as [| task' t ts' r Ht Hr]; subst.
      rewrite Ht. cbn [Py.bind]. apply IH in Hr. rewrite Hr. reflexivity.
Qed.

Lemma tasks_from_first_failure (pre post : list Abipy.Task) (task : Abipy.Task) (e : Py.exn) :
  Forall (fun t => Py.is_ok (MongoTask.from_task t) = true) pre ->
  MongoTask.from_task task = Py.Raise e ->
  MongoWork.tasks_from (pre ++ task :: post) = Py.Raise e.
Proof.
  intros Hpre Hraise. induction Hpre as [| t pre Ht _ IH]; cbn [app MongoWork.tasks_from].
  - now rewrite Hraise.
  - destruct (MongoTask.from_task t); [| discriminate]. cbn [Py.bind]. now rewrite IH.
Qed.

Lemma works_from_Forall2 (ws : list Abipy.Work) (new : list MongoWork.t) :
  MongoFlow.works_from ws = Py.Ok new <->
  Forall2 (fun work w => MongoWork.from_work work = Py.Ok w) ws new.
Proof.
  revert new. induction ws as [| work rest IH]; intros new; cbn [MongoFlow.works_from].
  - split.
    + intros [= <-]. constructor.
    + intros H. inversion H. reflexivity.
  - split.
    + destruct (MongoWork.from_work work) as [w |] eqn:Hw; cbn [Py.bind]; [| discriminate].
      destruct (MongoFlow.works_from rest) as [r |] eqn:Hr; cbn [Py.bind]; [| discriminate].
      intros [= <-]. constructor; [exact Hw | now apply IH].
    + intros H. inversion H as [| work' w ws' r Hw Hr]; subst.
      rewrite Hw. cbn [Py.bind]. apply IH in Hr. rewrite Hr. reflexivity.
Qed.

Lemma works_from_first_failure (pre post : list Abipy.Work) (work : Abipy.Work) (e : Py.exn) :
  Forall (fun w => Py.is_ok (MongoWork.from_work w) = true) pre ->
  MongoWork.from_work work = Py.Raise e ->
  MongoFlow.works_from (pre ++ work :: post) = Py.Raise e.
Proof.
  intros Hpre Hraise. induction Hpre as [| w pre Hw _ IH]; cbn [app MongoFlow.works_from].
  - now rewrite Hraise.
  - destruct (MongoWork.from_work w); [| discriminate]. cbn [Py.bind]. now rewrite IH.
Qed.

(** X5: the work record [from_work] returns has one task record per task
    of the work, in the order of the work, each the result of [from_task]
    on the task at the same position; its node fields and its file-set
    record are those of the work itself. *)
Theorem from_work_preserves_tasks (work : Abipy.Work) (new : MongoWork.t) :
  MongoWork.from_work work = Py.Ok new ->
  MongoWork.base new = MongoEmbeddedNode.from_node (Abipy.work_node work) /\
  Forall2 (fun task t => MongoTask.from_task task = Py.Ok t)
    (Abipy.work_tasks work) (MongoWork.tasks_list new) /\
  length (MongoWork.tasks_list new) = length (Abipy.work_tasks work) /\
  (exists files, MongoFiles.from_node (Abipy.work_node work) = Py.Ok files /\
     MongoWork.outfiles new = Some files).
Proof.
  unfold MongoWork.from_work.
  destruct (MongoWork.tasks_from (Abipy.work_tasks work)) as [ts |] eqn:Hts;
    cbn [Py.bind]; [| discriminate].
  destruct (MongoFiles.from_node (Abipy.work_node work)) as [files |] eqn:Hfiles;
    cbn [Py.bind]; [| discriminate].
  intros [= <-]. apply tasks_from_Forall2 in Hts.
  split; [reflexivity |]. split; [exact Hts |]. split.
  - symmetry. exact (Forall2_length _ _ _ Hts).
  - exists files. split; reflexivity.
Qed.

Lemma from_work_preserves_tasks_witness :
  MongoWork.base Samples.two_task_work_record
    = MongoEmbeddedNode.from_node (Abipy.work_node Samples.two_task_work) /\
  Forall2 (fun task t => MongoTask.from_task task = Py.Ok t)
    [ Samples.bare_task; Samples.task ] (MongoWork.tasks_list Samples.two_task_work_record) /\
  length (MongoWork.tasks_list Samples.two_task_work_record) = 2%nat /\
  (exists files, MongoFiles.from_node (Abipy.work_node Samples.two_task_work) = Py.Ok files /\
     MongoWork.outfiles Samples.two_task_work_record = Some files).
Proof.
  apply (from_work_preserves_tasks Samples.two_task_work Samples.two_task_work_record).
  vm_compute. reflexivity.
Defined.

(** The two task records of the sample are those of its two tasks, in
    the order of the work. *)
Example two_task_work_record_order :
  map (fun t => MongoEmbeddedNode.node_id (MongoTask.base t))
    (MongoWork.tasks_list Samples.two_task_work_record) = [ Some 43; Some 42 ] /\
  map Abipy.node_id (map Abipy.task_node (Abipy.work_tasks Samples.two_task_work)) = [ 43; 42 ].
Proof. split; reflexivity. Qed.

(** X6: [from_work] is all or nothing.  The first task, in the order of
    the work, whose conversion raises makes [from_work] raise the same
    exception, whatever the later tasks and the work itself would give;
    when every task converts, an exception of the file-set conversion of
    the work is the exception of [from_work]. *)
Theorem from_work_first_failure (work : Abipy.Work) (pre post : list Abipy.Task)
    (task : Abipy.Task) (e : Py.exn) :
  (Abipy.work_tasks work = pre ++ task :: post ->
   Forall (fun t => Py.is_ok (MongoTask.from_task t) = true) pre ->
   MongoTask.from_task task = Py.Raise e ->
   MongoWork.from_work work = Py.Raise e) /\
  (Forall (fun t => Py.is_ok (MongoTask.from_task t) = true) (Abipy.work_tasks work) ->
   MongoFiles.from_node (Abipy.work_node work) = Py.Raise e ->
   MongoWork.from_work work = Py.Raise e).
Proof.
  split.
  - intros Htasks Hpre Hraise. unfold MongoWork.from_work.
    now rewrite Htasks, (tasks_from_first_failure pre post task e Hpre Hraise).
  - intros Hall Hraise. unfold MongoWork.from_work.
    destruct (MongoWork.tasks_from (Abipy.work_tasks work)) as [ts | e'] eqn:Hts.
    + cbn [Py.bind]. now rewrite Hraise.
    + exfalso. clear Hraise. induction Hall as [| t rest Ht _ IH];
        cbn [MongoWork.tasks_from] in Hts; [discriminate |].
      destruct (MongoTask.from_task t); [| discriminate]. cbn [Py.bind] in Hts.
      destruct (MongoWork.tasks_from rest); [discriminate |]. now apply IH.
Qed.

Lemma from_work_first_failure_witness :
  MongoWork.from_work
    {| Abipy.work_node := Samples.work_node;
       Abipy.work_tasks := [ Samples.task; Samples.task_without_report; Samples.task ] |}
  = Py.Raise (Py.AttributeError "NoneType" "num_errors").
Proof.
  apply (proj1 (from_work_first_failure _ [Samples.task] [Samples.task]
                  Samples.task_without_report _)).
  - reflexivity.
  - constructor; [vm_compute; reflexivity | constructor].
  - reflexivity.
Defined.

(** X7: the flow record [from_flow] returns has one work record per work
    of the flow, in the order of the flow, each the result of [from_work]
    on the work at the same position; and the first work whose conversion
    raises makes [from_flow] raise the same exception. *)
Theorem from_flow_preserves_works (flow : Abipy.Flow) :
  (forall new, MongoFlow.from_flow flow = Py.Ok new ->
     MongoFlow.base new = MongoNode.from_node (Abipy.flow_node flow) /\
     Forall2 (fun work w => MongoWork.from_work work = Py.Ok w)
       (Abipy.flow_works flow) (MongoFlow.works_list new) /\
     length (MongoFlow.works_list new) = length (Abipy.flow_works flow) /\
     (exists files, MongoFiles.from_node (Abipy.flow_node flow) = Py.Ok files /\
        MongoFlow.outfiles new = Some files)) /\
  (forall pre post work e,
     Abipy.flow_works flow = pre ++ work :: post ->
     Forall (fun w => Py.is_ok (MongoWork.from_work w) = true) pre ->
     MongoWork.from_work work = Py.Raise e ->
     MongoFlow.from_flow flow = Py.Raise e).
Proof.
  split.
  - intros new. unfold MongoFlow.from_flow.
    destruct (MongoFlow.works_from (Abipy.flow_works flow)) as [ws |] eqn:Hws;
      cbn [Py.bind]; [| discriminate].
    destruct (MongoFiles.from_node (Abipy.flow_node flow)) as [files |] eqn:Hfiles;
      cbn [Py.bind]; [| discriminate].
    intros [= <-]. apply works_from_Forall2 in Hws.
    split; [reflexivity |]. split; [exact Hws |]. split.
    + symmetry. exact (Forall2_length _ _ _ Hws).
    + exists files. split; reflexivity.
  - intros pre post work e Hworks Hpre Hraise. unfold MongoFlow.from_flow.
    now rewrite Hworks, (works_from_first_failure pre post work e Hpre Hraise).
Qed.

Lemma from_flow_preserves_works_witness :
  length (MongoFlow.works_list Samples.two_work_flow_record)
    = length (Abipy.flow_works Samples.two_work_flow).
Proof.
  apply (proj1 (from_flow_preserves_works Samples.two_work_flow) Samples.two_work_flow_record).
  vm_compute. reflexivity.
Defined.

Lemma andb_true_3 (a b c : bool) : a && b && c = true -> a = true /\ b = true /\ c = true.
Proof. destruct a, b, c; intros H; try discriminate; now repeat split. Qed.

Lemma from_task_convertible (task : Abipy.Task) (new : MongoTask.t) :
  MongoTask.from_task task = Py.Ok new -> task_convertible task = true.
Proof.
  intros Hnew. destruct (from_task_parts task new Hnew) as (report & files & Hr & Hf & _).
  unfold task_convertible. rewrite Hr, <- from_node_returns_iff, Hf. reflexivity.
Qed.

Lemma tasks_from_convertible (ts : list Abipy.Task) (new : list MongoTask.t) :
  MongoWork.tasks_from ts = Py.Ok new -> forallb task_convertible ts = true.
Proof.
  intros Hnew. apply tasks_from_Forall2 in Hnew.
  induction Hnew as [| task t ts new Ht _ IH]; [reflexivity |].
  cbn [forallb]. now rewrite (from_task_convertible task t Ht), IH.
Qed.

Lemma from_work_convertible (work : Abipy.Work) (new : MongoWork.t) :
  MongoWork.from_work work = Py.Ok new -> work_convertible work = true.
Proof.
  intros Hnew. destruct (from_work_parts work new Hnew) as (ts & files & Hts & Hf & _).
  unfold work_convertible.
  now rewrite <- from_node_returns_iff, Hf, (tasks_from_convertible _ ts Hts).
Qed.

(** X8: what a flow must be like for [from_flow] to return a record.  No
    output directory in the flow (of the flow, of a work, of a task) has a
    DDB file or a file with the [abo] extension, every task has an event
    report, and no [output_file] of a task reads text. *)
Theorem from_flow_returns_only_if (flow : Abipy.Flow) (new : MongoFlow.t) :
  MongoFlow.from_flow flow = Py.Ok new ->
  Abipy.has_abiext (Abipy.outdir (Abipy.flow_node flow)) "DDB" = "" /\
  Abipy.has_abiext (Abipy.outdir (Abipy.flow_node flow)) "abo" = "" /\
  (forall work, In work (Abipy.flow_works flow) ->
     Abipy.has_abiext (Abipy.outdir (Abipy.work_node work)) "DDB" = "" /\
     Abipy.has_abiext (Abipy.outdir (Abipy.work_node work)) "abo" = "" /\
     forall task, In task (Abipy.work_tasks work) ->
       Abipy.get_event_report task <> None /\
       Abipy.has_abiext (Abipy.outdir (Abipy.task_node task)) "DDB" = "" /\
       Abipy.has_abiext (Abipy.outdir (Abipy.task_node task)) "abo" = "" /\
       forall out s, Abipy.output_file (Abipy.task_node task) = Some out ->
         Abipy.read out <> Py.Str s).
Proof.
  intros Hnew. destruct (from_flow_parts flow new Hnew) as (ws & files & Hws & Hf & _).
  assert (Hworks : forallb work_convertible (Abipy.flow_works flow) = true).
  { apply works_from_Forall2 in Hws. clear -Hws.
    induction Hws as [| work w rest ws Hw _ IH]; [reflexivity |].
    cbn [forallb]. now rewrite (from_work_convertible work w Hw), IH. }
  destruct (from_node_ok_inv _ files Hf) as (Hfddb & Hfabo & _).
  split; [exact Hfddb |]. split; [exact Hfabo |].
  intros work Hwork. rewrite forallb_forall in Hworks.
  pose proof (Hworks work Hwork) as Hw. unfold work_convertible in Hw.
  apply andb_prop in Hw as [Hnode Htasks]. unfold node_storable in Hnode.
  apply andb_true_3 in Hnode as (Hddb & Habo & _).
  apply negb_true_iff, truthy_false in Hddb. apply negb_true_iff, truthy_false in Habo.
  split; [exact Hddb |]. split; [exact Habo |].
  intros task Htask. rewrite forallb_forall in Htasks.
  pose proof (Htasks task Htask) as Ht. unfold task_convertible in Ht.
  apply andb_prop in Ht as [Hreport Hstore]. unfold node_storable in Hstore.
  apply andb_true_3 in Hstore as (Htddb & Htabo & Hout).
  apply negb_true_iff, truthy_false in Htddb. apply negb_true_iff, truthy_false in Htabo.
  split; [destruct (Abipy.get_event_report task); [discriminate | discriminate Hreport] |].
  split; [exact Htddb |]. split; [exact Htabo |].
  intros out s Hacc Hread. rewrite Hacc, Hread in Hout. discriminate.
Qed.

Lemma from_flow_returns_only_if_witness :
  Abipy.has_abiext (Abipy.outdir (Abipy.flow_node Samples.two_work_flow)) "DDB" = "" /\
  Abipy.has_abiext (Abipy.outdir (Abipy.flow_node Samples.two_work_flow)) "abo" = "" /\
  (forall work, In work (Abipy.flow_works Samples.two_work_flow) ->
     Abipy.has_abiext (Abipy.outdir (Abipy.work_node work)) "DDB" = "" /\
     Abipy.has_abiext (Abipy.outdir (Abipy.work_node work)) "abo" = "" /\
     forall task, In task (Abipy.work_tasks work) ->
       Abipy.get_event_report task <> None /\
       Abipy.has_abiext (Abipy.outdir (Abipy.task_node task)) "DDB" = "" /\
       Abipy.has_abiext (Abipy.outdir (Abipy.task_node task)) "abo" = "" /\
       forall out s, Abipy.output_file (Abipy.task_node task) = Some out ->
         Abipy.read out <> Py.Str s).
Proof.
  apply (from_flow_returns_only_if Samples.two_work_flow Samples.two_work_flow_record).
  vm_compute. reflexivity.
Defined.

(** ** Indexed lookup: integers, names and slices *)

(** X9: an integer subscript reaches the embedded list through the list
    of the list field, which shifts a negative subscript by the length
    before the list applies its own rule.  The subscript [n] of a task in
    the list returns that task, and so do [n - len] and [n - 2 * len]; a
    subscript below [-2 * len] or from [len] on raises [IndexError].  The
    same holds for the works of a flow record. *)
Theorem getitem_integer (w : MongoWork.t) (f : MongoFlow.t) :
  (forall n task, MongoWork.tasks_list w !! n = Some task ->
     MongoWork.getitem w (Py.KIndex (Z.of_nat n)) = Py.Ok (MongoWork.VTask task) /\
     MongoWork.getitem w (Py.KIndex (Z.of_nat n - Z.of_nat (length (MongoWork.tasks_list w))))
       = Py.Ok (MongoWork.VTask task) /\
     MongoWork.getitem w
       (Py.KIndex (Z.of_nat n - 2 * Z.of_nat (length (MongoWork.tasks_list w))))
       = Py.Ok (MongoWork.VTask task)) /\
  (forall i, i < - (2 * Z.of_nat (length (MongoWork.tasks_list w))) \/
             Z.of_nat (length (MongoWork.tasks_list w)) <= i ->
     MongoWork.getitem w (Py.KIndex i) = Py.Raise Py.IndexError) /\
  (forall n work, MongoFlow.works_list f !! n = Some work ->
     MongoFlow.getitem f (Py.KIndex (Z.of_nat n)) = Py.Ok (MongoFlow.VWork work) /\
     MongoFlow.getitem f (Py.KIndex (Z.of_nat n - Z.of_nat (length (MongoFlow.works_list f))))
       = Py.Ok (MongoFlow.VWork work) /\
     MongoFlow.getitem f
       (Py.KIndex (Z.of_nat n - 2 * Z.of_nat (length (MongoFlow.works_list f))))
       = Py.Ok (MongoFlow.VWork work)) /\
  (forall i, i < - (2 * Z.of_nat (length (MongoFlow.works_list f))) \/
             Z.of_nat (length (MongoFlow.works_list f)) <= i ->
     MongoFlow.getitem f (Py.KIndex i) = Py.Raise Py.IndexError).
Proof.
  split; [| split; [| split]].
  - intros n task Hn.
    destruct (baselist_getitem_in_range _ n task Hn) as (H0 & H1 & H2).
    rewrite !work_getitem_fallback by discriminate. now rewrite H0, H1, H2.
  - intros i Hout. rewrite work_getitem_fallback by discriminate.
    now rewrite (baselist_getitem_out_of_range _ i Hout).
  - intros n work Hn.
    destruct (baselist_getitem_in_range _ n work Hn) as (H0 & H1 & H2).
    rewrite !flow_getitem_fallback by discriminate. now rewrite H0, H1, H2.
  - intros i Hout. rewrite flow_getitem_fallback by discriminate.
    now rewrite (baselist_getitem_out_of_range _ i Hout).
Qed.

Lemma getitem_integer_witness :
  MongoFlow.getitem Samples.two_work_flow_record (Py.KIndex (-1))
    = Py.Ok (MongoFlow.VWork Samples.second_work_record) /\
  MongoFlow.getitem Samples.two_work_flow_record (Py.KIndex (-3))
    = Py.Ok (MongoFlow.VWork Samples.second_work_record) /\
  MongoFlow.getitem Samples.two_work_flow_record (Py.KIndex 2) = Py.Raise Py.IndexError /\
  MongoFlow.getitem Samples.two_work_flow_record (Py.KIndex (-5)) = Py.Raise Py.IndexError.
Proof.
  destruct (getitem_integer Samples.work_record Samples.two_work_flow_record)
    as (_ & _ & Hin & Hout).
  destruct (Hin 1%nat Samples.second_work_record eq_refl) as (_ & Hneg & Hneg2).
  split; [exact Hneg |]. split; [exact Hneg2 |]. split.
  - apply Hout. right. vm_compute. discriminate.
  - apply Hout. left. vm_compute. reflexivity.
Defined.

Lemma existsb_eqb_In (s : string) (l : list string) :
  existsb (String.eqb s) l = true <-> In s l.
Proof.
  rewrite existsb_exists. split.
  - intros (x & Hin & Heq). apply String.eqb_eq in Heq. now subst.
  - intros Hin. exists s. split; [exact Hin | apply String.eqb_refl].
Qed.

Lemma list_getitem_no_key_error {A} (l : list A) (name : Py.key) (k : Py.key) :
  Py.list_getitem l name <> Py.Raise (Py.KeyError k).
Proof.
  destruct name as [s | i | a b c]; cbn [Py.list_getitem]; [discriminate | |].
  - unfold Py.getitem_int.
    destruct (_ || _); [discriminate |]. destruct (l !! _); discriminate.
  - unfold Py.getitem_slice. destruct (Py.slice_indices _ _ _ _) as [[[? ?] ?] |]; discriminate.
Qed.

Lemma baselist_getitem_no_key_error {A} (l : list A) (name : Py.key) (k : Py.key) :
  baselist_getitem l name <> Py.Raise (Py.KeyError k).
Proof. destruct name; apply list_getitem_no_key_error. Qed.

(** X10: [__getitem__] never raises [KeyError].  A name that is not a
    field falls through to the list, which rejects it with [TypeError];
    so a misspelt field name is reported as a bad list index. *)
Theorem getitem_never_key_error (w : MongoWork.t) (f : MongoFlow.t) (name : Py.key) :
  (forall k, MongoWork.getitem w name <> Py.Raise (Py.KeyError k)) /\
  (forall k, MongoFlow.getitem f name <> Py.Raise (Py.KeyError k)) /\
  (forall s, name = Py.KName s -> ~ In s MongoWork._fields_ordered ->
     MongoWork.getitem w name
       = Py.Raise (Py.TypeError "list indices must be integers or slices, not str")) /\
  (forall s, name = Py.KName s -> ~ In s MongoFlow._fields_ordered ->
     MongoFlow.getitem f name
       = Py.Raise (Py.TypeError "list indices must be integers or slices, not str")).
Proof.
  assert (Hwork : forall name,
            MongoWork.getitem w name =
            match MongoWork.super_getitem w name with
            | Py.Raise (Py.KeyError _) => MongoWork.tasks_getitem w name
            | r => r
            end).
  { intros n. unfold MongoWork.getitem.
    destruct (MongoWork.super_getitem w n) as [v | []]; try reflexivity.
    destruct (MongoWork.tasks_getitem w n) as [v | []]; reflexivity. }
  assert (Hflow : forall name,
            MongoFlow.getitem f name =
            match MongoFlow.super_getitem f name with
            | Py.Raise (Py.KeyError _) => MongoFlow.works_getitem f name
            | r => r
            end).
  { intros n. unfold MongoFlow.getitem.
    destruct (MongoFlow.super_getitem f n) as [v | []]; try reflexivity.
    destruct (MongoFlow.works_getitem f n) as [v | []]; reflexivity. }
  assert (Htasks : forall k, MongoWork.tasks_getitem w name <> Py.Raise (Py.KeyError k)).
  { intros k. unfold MongoWork.tasks_getitem.
    pose proof (baselist_getitem_no_key_error (MongoWork.tasks_list w) name k) as Hk.
    destruct (baselist_getitem _ name) as [[] |]; [discriminate | discriminate |].
    intros [= ->]. now apply Hk. }
  assert (Hworks : forall k, MongoFlow.works_getitem f name <> Py.Raise (Py.KeyError k)).
  { intros k. unfold MongoFlow.works_getitem.
    pose proof (baselist_getitem_no_key_error (MongoFlow.works_list f) name k) as Hk.
    destruct (baselist_getitem _ name) as [[] |]; [discriminate | discriminate |].
    intros [= ->]. now apply Hk. }
  split; [| split; [| split]].
  - intros k. rewrite Hwork.
    destruct name as [s | i | a b c]; cbn [MongoWork.super_getitem document_getitem];
      try apply Htasks.
    destruct (existsb (String.eqb s) MongoWork._fields_ordered) eqn:Hs; [| apply Htasks].
    apply existsb_eqb_In in Hs.
    destruct (work_super_getitem_name w s Hs) as [_ Hok].
    destruct (MongoWork.getattr w s); [discriminate | discriminate].
  - intros k. rewrite Hflow.
    destruct name as [s | i | a b c]; cbn [MongoFlow.super_getitem document_getitem];
      try apply Hworks.
    destruct (existsb (String.eqb s) MongoFlow._fields_ordered) eqn:Hs; [| apply Hworks].
    apply existsb_eqb_In in Hs.
    destruct (flow_super_getitem_name f s Hs) as [_ Hok].
    destruct (MongoFlow.getattr f s); [discriminate | discriminate].
  - intros s -> Hnot. rewrite Hwork. cbn [MongoWork.super_getitem document_getitem].
    destruct (existsb (String.eqb s) MongoWork._fields_ordered) eqn:Hs.
    + apply existsb_eqb_In in Hs. now elim Hnot.
    + reflexivity.
  - intros s -> Hnot. rewrite Hflow. cbn [MongoFlow.super_getitem document_getitem].
    destruct (existsb (String.eqb s) MongoFlow._fields_ordered) eqn:Hs.
    + apply existsb_eqb_In in Hs. now elim Hnot.
    + reflexivity.
Qed.

Lemma getitem_never_key_error_witness :
  MongoWork.getitem Samples.work_record (Py.KName "task")
    = Py.Raise (Py.TypeError "list indices must be integers or slices, not str").
Proof.
  apply (getitem_never_key_error Samples.work_record Samples.flow_record (Py.KName "task")
           ) with (s := "task"); [reflexivity |].
  cbn. intros H. repeat (destruct H as [H | H]; [discriminate |]). exact H.
Defined.

(** X11: a slice subscript reaches the embedded list and never raises
    [IndexError]: with a step other than zero the lookup returns a list,
    every element of which is a task of the work (a work of the flow);
    the slice without bounds returns the whole list; a zero step raises
    [ValueError]. *)
Theorem getitem_by_slice (w : MongoWork.t) (f : MongoFlow.t) :
  MongoWork.getitem w (Py.KSlice None None None)
    = Py.Ok (MongoWork.VTasks (MongoWork.tasks_list w)) /\
  MongoFlow.getitem f (Py.KSlice None None None)
    = Py.Ok (MongoFlow.VWorks (MongoFlow.works_list f)) /\
  (forall a b s, s <> Some 0 ->
     exists l, MongoWork.getitem w (Py.KSlice a b s) = Py.Ok (MongoWork.VTasks l) /\
       forall task, In task l -> In task (MongoWork.tasks_list w)) /\
  (forall a b s, s <> Some 0 ->
     exists l, MongoFlow.getitem f (Py.KSlice a b s) = Py.Ok (MongoFlow.VWorks l) /\
       forall work, In work l -> In work (MongoFlow.works_list f)) /\
  (forall a b,
     MongoWork.getitem w (Py.KSlice a b (Some 0))
       = Py.Raise (Py.ValueError "slice step cannot be zero") /\
     MongoFlow.getitem f (Py.KSlice a b (Some 0))
       = Py.Raise (Py.ValueError "slice step cannot be zero")).
Proof.
  split; [| split; [| split; [| split]]].
  - rewrite work_getitem_fallback by discriminate. cbn [baselist_getitem Py.list_getitem].
    now rewrite getitem_slice_full.
  - rewrite flow_getitem_fallback by discriminate. cbn [baselist_getitem Py.list_getitem].
    now rewrite getitem_slice_full.
  - intros a b s Hs.
    destruct (getitem_slice_total (MongoWork.tasks_list w) a b s Hs) as [r Hr].
    exists r. split.
    + rewrite work_getitem_fallback by discriminate. cbn [baselist_getitem Py.list_getitem].
      now rewrite Hr.
    + exact (getitem_slice_elements _ _ _ _ _ Hr).
  - intros a b s Hs.
    destruct (getitem_slice_total (MongoFlow.works_list f) a b s Hs) as [r Hr].
    exists r. split.
    + rewrite flow_getitem_fallback by discriminate. cbn [baselist_getitem Py.list_getitem].
      now rewrite Hr.
    + exact (getitem_slice_elements _ _ _ _ _ Hr).
  - intros a b. split; reflexivity.
Qed.

Lemma getitem_by_slice_witness :
  exists l, MongoFlow.getitem Samples.two_work_flow_record (Py.KSlice (Some 1) (Some 5) None)
              = Py.Ok (MongoFlow.VWorks l) /\
    forall work, In work l -> In work (MongoFlow.works_list Samples.two_work_flow_record).
Proof.
  apply (getitem_by_slice Samples.work_record Samples.two_work_flow_record). discriminate.
Defined.

(** ** [MongoFiles.delete]: which calls are made *)

(** X14: [MongoFiles.delete] makes its calls in the order of the fields
    and stops at the first one that fails.  It returns exactly when none
    of its eight calls fails; it has then called [delete()] on the proxy of
    every field, empty or not, and left every field empty.  When the
    call number [k] is the first to fail, the calls made are those on the
    first [k + 1] fields and the error of the store is raised. *)
Theorem files_delete_returns_iff (self : MongoFiles.t) (st : Backend) :
  ((exists r, snd (MongoFiles.delete self st) = Py.Ok r) <->
   (forall n, (length (calls st) <= n < length (calls st) + 8)%nat -> fails st n = false)) /\
  ((forall n, (length (calls st) <= n < length (calls st) + 8)%nat -> fails st n = false) ->
   MongoFiles.delete self st =
     ({| fails := fails st; calls := calls st ++ MongoFiles.proxies self |},
      Py.Ok MongoFiles.new)) /\
  (forall k, (k < 8)%nat ->
     (forall n, (length (calls st) <= n < length (calls st) + k)%nat -> fails st n = false) ->
     fails st (length (calls st) + k)%nat = true ->
     MongoFiles.delete self st =
       ({| fails := fails st; calls := calls st ++ firstn (S k) (MongoFiles.proxies self) |},
        Py.Raise Py.OperationFailure)).
Proof.
  split; [| split].
  - split.
    + intros [r Hr].
      destruct (first_failure (fails st) (length (calls st)) 8)
        as [Hnone | (k & Hk & Hpre & Hfail)]; [exact Hnone |].
      rewrite (files_delete_fails_at self st k Hk Hpre Hfail) in Hr. discriminate.
    + intros Hnone. rewrite (files_delete_ok_bounded self st Hnone). eexists. reflexivity.
  - apply files_delete_ok_bounded.
  - apply files_delete_fails_at.
Qed.

Lemma files_delete_returns_iff_witness :
  MongoFiles.delete Samples.three_files Samples.third_call_fails
  = ({| fails := fails Samples.third_call_fails;
        calls := [ {| key := "gsr"; grid_id := Some (FromData (Py.Bytes "a")) |};
                   {| key := "hist"; grid_id := None |};
                   {| key := "phbst"; grid_id := Some (FromData (Py.Bytes "b")) |} ] |},
     Py.Raise Py.OperationFailure).
Proof.
  refine (proj2 (proj2 (files_delete_returns_iff Samples.three_files Samples.third_call_fails))
            2%nat _ _ _).
  - lia.
  - intros n Hn. cbn in Hn. destruct n as [| [| n]]; [reflexivity | reflexivity | lia].
  - reflexivity.
Defined.

(** ** [MongoFlow.delete]: the whole run *)

(** X15: [MongoFlow.delete] never returns.  Its last statement calls the
    method again, so whatever the record, the store and the way a work is
    iterated, the call ends with an exception. *)
Theorem flow_delete_always_raises (it : iteration) (depth : nat) (self : MongoFlow.t)
    (st : Backend) :
  exists e, snd (MongoFlow.delete it depth self st) = Py.Raise e.
Proof.
  pose proof (delete_never_returns it depth self st) as Hnever.
  destruct (snd (MongoFlow.delete it depth self st)) as [[] | e]; [discriminate |].
  now exists e.
Qed.

(** X17: [delete] never touches the file set of the flow itself.  The run
    is the same whatever the [outfiles] of the flow record holds, and a
    flow record without works makes no call at all. *)
Theorem flow_delete_ignores_own_outfiles (it : iteration) (depth : nat) (self : MongoFlow.t)
    (st : Backend) :
  (forall files,
     MongoFlow.delete it depth
       {| MongoFlow.base := MongoFlow.base self; MongoFlow.works := MongoFlow.works self;
          MongoFlow.outfiles := files |} st
     = MongoFlow.delete it depth self st) /\
  (MongoFlow.works_list self = [] -> fst (MongoFlow.delete it depth self st) = st).
Proof.
  split.
  - intros files. revert self st.
    induction depth as [| depth IH]; intros self st; [reflexivity |].
    cbn [MongoFlow.delete]. unfold MongoFlow.works_list. cbn [MongoFlow.works].
    destruct (MongoFlow.delete_works it _ st) as [st' [ws' | e]]; [| reflexivity].
    cbn [MongoFlow.base MongoFlow.outfiles].
    rewrite <- (IH {| MongoFlow.base := MongoFlow.base self; MongoFlow.works := Some ws';
                      MongoFlow.outfiles := MongoFlow.outfiles self |} st').
    reflexivity.
  - revert self st. induction depth as [| depth IH]; intros self st Hnone; [reflexivity |].
    cbn [MongoFlow.delete]. rewrite Hnone. cbn [MongoFlow.delete_works]. now apply IH.
Qed.

Lemma flow_delete_ignores_own_outfiles_witness :
  fst (MongoFlow.delete ByFieldNames 5
         {| MongoFlow.base := MongoNode.from_node Samples.flow_node;
            MongoFlow.works := Some [];
            MongoFlow.outfiles := Some Samples.three_files |} Samples.failing_store)
  = Samples.failing_store.
Proof.
  apply (flow_delete_ignores_own_outfiles ByFieldNames 5
           {| MongoFlow.base := MongoNode.from_node Samples.flow_node;
              MongoFlow.works := Some [];
              MongoFlow.outfiles := Some Samples.three_files |} Samples.failing_store).
  reflexivity.
Defined.

(** X18: the file-set record of a work is an optional field, and [delete]
    does not look whether it is there.  When the first work has none, the
    run makes no call and raises [AttributeError], [None] having no
    [delete], whatever the works after it hold. *)
Theorem flow_delete_missing_outfiles (it : iteration) (depth : nat) (self : MongoFlow.t)
    (st : Backend) (work : MongoWork.t) (rest : list MongoWork.t) :
  MongoFlow.works_list self = work :: rest ->
  MongoWork.outfiles work = None ->
  MongoFlow.delete it (S depth) self st
    = (st, Py.Raise (Py.AttributeError "NoneType" "delete")).
Proof.
  intros Hworks Hnone. cbn [MongoFlow.delete]. rewrite Hworks.
  cbn [MongoFlow.delete_works]. now rewrite Hnone.
Qed.

Lemma flow_delete_missing_outfiles_witness :
  MongoFlow.delete ByFieldNames 4
    {| MongoFlow.base := MongoNode.from_node Samples.flow_node;
       MongoFlow.works := Some [ MongoWork.from_node Samples.second_work_node;
                                 Samples.work_record ];
       MongoFlow.outfiles := None |} Samples.reliable_store
  = (Samples.reliable_store, Py.Raise (Py.AttributeError "NoneType" "delete")).
Proof.
  apply (flow_delete_missing_outfiles ByFieldNames 3 _ Samples.reliable_store
           (MongoWork.from_node Samples.second_work_node) [ Samples.work_record ]).
  - reflexivity.
  - reflexivity.
Defined.

(** X19: when iterating a work record yields the names of its fields, as
    the [__iter__] of the document base class does, [delete] gets no
    further than the first work: it calls the eight proxies of that
    work's file set and then raises [AttributeError], a name having no
    [outfiles]; no proxy of a task, and no proxy of a later work, is
    called. *)
Theorem flow_delete_by_field_names (depth : nat) (self : MongoFlow.t) (st : Backend)
    (work : MongoWork.t) (rest : list MongoWork.t) (files : MongoFiles.t) :
  MongoFlow.works_list self = work :: rest ->
  MongoWork.outfiles work = Some files ->
  (forall n, fails st n = false) ->
  MongoFlow.delete ByFieldNames (S depth) self st =
    ({| fails := fails st; calls := calls st ++ MongoFiles.proxies files |},
     Py.Raise (Py.AttributeError "str" "outfiles")) /\
  length (calls (fst (MongoFlow.delete ByFieldNames (S depth) self st)))
    = (length (calls st) + 8)%nat.
Proof.
  intros Hws Hfiles Hok.
  rewrite (delete_by_field_names depth self st work rest files Hws Hfiles (fun n _ => Hok n)).
  split; [reflexivity |]. cbn [fst calls]. now rewrite length_app.
Qed.

Lemma flow_delete_by_field_names_witness :
  length (calls (fst (MongoFlow.delete ByFieldNames 3 Samples.two_work_flow_record
                        Samples.reliable_store))) = 8%nat.
Proof.
  refine (proj2 (flow_delete_by_field_names 2 Samples.two_work_flow_record
                   Samples.reliable_store Samples.work_record [ Samples.second_work_record ]
                   _ eq_refl eq_refl (fun _ => eq_refl))).
Defined.

(** X22: with the iteration the program has, [delete] never gets past
    the file set of the first work, whatever the store does: the calls it
    makes are the first [k] of the eight proxies of that file set, for some
    [k], in the order of the fields.  No proxy of a task and no proxy of a
    later work is ever called. *)
Theorem flow_delete_first_work_only (depth : nat) (self : MongoFlow.t) (st : Backend)
    (work : MongoWork.t) (rest : list MongoWork.t) (files : MongoFiles.t) :
  MongoFlow.works_list self = work :: rest ->
  MongoWork.outfiles work = Some files ->
  exists k, (k <= 8)%nat /\
    calls (fst (MongoFlow.delete ByFieldNames depth self st))
      = (calls st ++ firstn k (MongoFiles.proxies files))%list.
Proof.
  intros Hws Hfiles. destruct depth as [| depth].
  - exists 0%nat. split; [lia |]. cbn. now rewrite app_nil_r.
  - destruct (first_failure (fails st) (length (calls st)) 8)
      as [Hnone | (k & Hk & Hpre & Hfail)].
    + exists 8%nat. split; [lia |].
      now rewrite (delete_by_field_names depth self st work rest files Hws Hfiles Hnone).
    + exists (S k). split; [lia |]. cbn [MongoFlow.delete]. rewrite Hws.
      cbn [MongoFlow.delete_works]. rewrite Hfiles. cbn [MongoFlow.outfiles_delete].
      now rewrite (files_delete_fails_at files st k Hk Hpre Hfail).
Qed.

Lemma flow_delete_first_work_only_witness :
  exists k, (k <= 8)%nat /\
    calls (fst (MongoFlow.delete ByFieldNames 1000 Samples.two_work_flow_record
                  Samples.third_call_fails))
      = (calls Samples.third_call_fails
           ++ firstn k (MongoFiles.proxies
                          {| MongoFiles.gsr :=
                               Some (FromHandle "/scratch/flow/w0/outdata/out_GSR.nc" "rb");
                             MongoFiles.hist := None; MongoFiles.phbst := None;
                             MongoFiles.phdos := None; MongoFiles.sigres := None;
                             MongoFiles.mdf := None; MongoFiles.ddb := None;
                             MongoFiles.output_file := None |}))%list.
Proof.
  exact (flow_delete_first_work_only 1000 Samples.two_work_flow_record Samples.third_call_fails
           Samples.work_record [ Samples.second_work_record ] _ eq_refl eq_refl).
Defined.

(** ** [MongoFlow.completed] *)

(** X20: [completed] keeps exactly the flow records whose stored status
    is the string ["Completed"], each once and in the order of the
    queryset: a record with that status is kept in its place, any other
    record is dropped.  A flow record built by [from_flow] is kept exactly
    when the string of the status of the flow is ["Completed"]. *)
Theorem completed_exactly (queryset : list MongoFlow.t) :
  MongoFlow.completed [] = [] /\
  (forall doc, MongoNode.status (MongoFlow.base doc) = Some "Completed" ->
     MongoFlow.completed (doc :: queryset) = doc :: MongoFlow.completed queryset) /\
  (forall doc, MongoNode.status (MongoFlow.base doc) <> Some "Completed" ->
     MongoFlow.completed (doc :: queryset) = MongoFlow.completed queryset) /\
  (forall doc, In doc (MongoFlow.completed queryset) <->
     In doc queryset /\ MongoNode.status (MongoFlow.base doc) = Some "Completed") /\
  (forall more, MongoFlow.completed (queryset ++ more)
     = MongoFlow.completed queryset ++ MongoFlow.completed more) /\
  (forall flow doc, MongoFlow.from_flow flow = Py.Ok doc ->
     MongoFlow.completed (doc :: queryset) =
       if String.eqb (Abipy.status_str (Abipy.status (Abipy.flow_node flow))) "Completed"
       then doc :: MongoFlow.completed queryset
       else MongoFlow.completed queryset).
Proof.
  split; [reflexivity |]. split; [| split; [| split; [| split]]].
  - intros doc Hst. unfold MongoFlow.completed. cbn [List.filter]. now rewrite Hst.
  - intros doc Hst. unfold MongoFlow.completed. cbn [List.filter].
    destruct (MongoNode.status (MongoFlow.base doc)) as [s |]; [| reflexivity].
    destruct (String.eqb_spec s "Completed") as [-> | _]; [now elim Hst | reflexivity].
  - intros doc. unfold MongoFlow.completed. rewrite filter_In. split.
    + intros [Hdoc Hst]. split; [exact Hdoc |].
      destruct (MongoNode.status (MongoFlow.base doc)) as [s |]; [| discriminate].
      apply String.eqb_eq in Hst. now subst.
    + intros [Hdoc Hst]. split; [exact Hdoc |]. now rewrite Hst.
  - intros more. unfold MongoFlow.completed. apply List.filter_app.
  - intros flow doc Hdoc.
    destruct (from_flow_parts flow doc Hdoc) as (ws & files & _ & _ & ->).
    reflexivity.
Qed.

Lemma completed_exactly_witness :
  MongoFlow.completed
    [ Samples.flow_record; Samples.running_flow_record; Samples.two_work_flow_record ]
  = [ Samples.flow_record; Samples.two_work_flow_record ].
Proof.
  rewrite (proj1 (proj2 (completed_exactly
             [ Samples.running_flow_record; Samples.two_work_flow_record ]))
             Samples.flow_record eq_refl).
  rewrite (proj1 (proj2 (proj2 (completed_exactly [ Samples.two_work_flow_record ])))
             Samples.running_flow_record ltac:(discriminate)).
  rewrite (proj1 (proj2 (completed_exactly [])) Samples.two_work_flow_record eq_refl).
  now rewrite (proj1 (completed_exactly [])).
Defined.
